(** * AutoVFX credit endpoints: a shallow embedding and its properties

    The development follows the JavaScript sources of the repository:

    - [webhook-server.js]: the in-memory store [usersByEmail] /
      [processedWebhookIds], the Shopify webhook handler, the
      [POST /v1/jobs] credit reservation, the sign-in and mock-order
      routes and the rate limiter;
    - [api/v2/index.js] and [api/v2/utils.js] ([api/index.js] carries the
      same [subtractCredits]): [calculateCredits], [getPercentageUsed],
      [redact], [getUser], [subtractCredits] and the [POST /generate] and
      [POST /status] handlers over the Postgres [users] table and the
      process's connection pool;
    - [js/main.js] and the panel's [LicenseAPI]: [calculateCreditsNeeded],
      [reserveCredits], [reserveCreditsForGeneration] and
      [settleCreditsOnCompletion];
    - the Postgres-backed copy of the server ([getUser], [updateBalance]):
      its [POST /v1/jobs], its webhook handler and its start-up check.

    JavaScript numbers are modelled as rationals extended with [NaN] and
    the two infinities, and arithmetic on them is exact.  A double
    operation returns the exact result whenever that result is a double; in
    particular sums, differences and products of whole numbers are exact
    as long as operands and result stay within [JS.safe] (2^53 in
    magnitude).  The properties below say where they rely on this.  The
    sign of zero is not modelled. *)

From Stdlib Require Import ZArith QArith Qround Qabs Lia Lqa.
From stdpp Require Import base strings gmap pretty.

Open Scope Z_scope.

(** ** JavaScript values *)

Module JS.

Inductive number : Type :=
| NaN
| PosInfinity
| NegInfinity
| Fin (q : Q).

Definition of_Z (z : Z) : number := Fin (inject_Z z).

(** The whole numbers up to 2^53 in magnitude: each of them is a double,
    and a sum, difference or product of doubles that equals one of them is
    computed exactly. *)
Definition safe (z : Z) : Prop := - 2 ^ 53 <= z <= 2 ^ 53.

Definition neg (a : number) : number :=
  match a with
  | NaN => NaN
  | PosInfinity => NegInfinity
  | NegInfinity => PosInfinity
  | Fin q => Fin (- q)
  end.

(** [a + b] on numbers; exact (see the note on [safe]). *)
Definition add (a b : number) : number :=
  match a, b with
  | NaN, _ | _, NaN => NaN
  | PosInfinity, NegInfinity | NegInfinity, PosInfinity => NaN
  | PosInfinity, _ | _, PosInfinity => PosInfinity
  | NegInfinity, _ | _, NegInfinity => NegInfinity
  | Fin x, Fin y => Fin (x + y)
  end.

(** [a - b] *)
Definition sub (a b : number) : number := add a (neg b).

(** An infinity times a finite factor: the sign of the factor decides,
    and a zero factor gives [NaN]. *)
Definition scale_infinity (inf : number) (q : Q) : number :=
  match (q ?= 0)%Q with
  | Eq => NaN
  | Gt => inf
  | Lt => neg inf
  end.

(** [a * b]; exact: the double product is this number rounded to the
    nearest double, so the two agree where the exact product is a double
    (whole factors with a product within [safe], for one), and differ
    beyond: there the double product is rounded, or overflows to an
    infinity. *)
Definition mul (a b : number) : number :=
  match a, b with
  | NaN, _ | _, NaN => NaN
  | Fin x, Fin y => Fin (x * y)
  | Fin x, inf => scale_infinity inf x
  | inf, Fin y => scale_infinity inf y
  | PosInfinity, PosInfinity | NegInfinity, NegInfinity => PosInfinity
  | PosInfinity, NegInfinity | NegInfinity, PosInfinity => NegInfinity
  end.

(** [a < b]; every comparison with [NaN] is false. *)
Definition lt (a b : number) : bool :=
  match a, b with
  | NaN, _ | _, NaN => false
  | Fin x, Fin y => negb (Qle_bool y x)
  | NegInfinity, NegInfinity => false
  | NegInfinity, _ => true
  | _, NegInfinity => false
  | PosInfinity, _ => false
  | Fin _, PosInfinity => true
  end.

(** [a > b] *)
Definition gt (a b : number) : bool := lt b a.

(** [Math.max(a, b)] *)
Definition Math_max (a b : number) : number :=
  match a, b with
  | NaN, _ | _, NaN => NaN
  | PosInfinity, _ | _, PosInfinity => PosInfinity
  | NegInfinity, x | x, NegInfinity => x
  | Fin x, Fin y => if Qle_bool x y then Fin y else Fin x
  end.

(** [Math.round(a)]: the nearest integer, a tie going up. *)
Definition Math_round (a : number) : number :=
  match a with
  | Fin q => of_Z (Qfloor (q + (1 # 2)))
  | other => other
  end.

(** [Math.ceil(a)] *)
Definition Math_ceil (a : number) : number :=
  match a with
  | Fin q => of_Z (Qceiling q)
  | other => other
  end.

(** The values a parsed JSON body, a header or a property read can hold.
    An array, a plain object or a function is carried with the string its
    conversion to a primitive yields ([toString]), which is all that
    [Number(...)] and [+] look at. *)
Inductive value : Type :=
| VUndefined
| VNull
| VBool (b : bool)
| VNumber (n : number)
| VString (s : string)
| VObject (printed : string).

(** Truthiness, as tested by [if], [!] and [||]. *)
Definition truthy (v : value) : bool :=
  match v with
  | VUndefined | VNull => false
  | VBool b => b
  | VNumber NaN => false
  | VNumber (Fin q) => negb (Qeq_bool q 0)
  | VNumber _ => true
  | VString s => negb (String.eqb s "")
  | VObject _ => true
  end.

(** [a || b] *)
Definition or_else (a b : value) : value := if truthy a then a else b.

(** The conversions between strings and numbers are the engine's; they
    are kept as an interface of the embedding. *)
Class Engine : Type := {
  StringToNumber : string -> number;
  NumberToString : number -> string
}.

(** [Number(v)], which is also the coercion applied by [Math.ceil],
    [Math.max], [<] against a number and the arithmetic operators. *)
Definition Number `{Engine} (v : value) : number :=
  match v with
  | VUndefined => NaN
  | VNull => of_Z 0
  | VBool true => of_Z 1
  | VBool false => of_Z 0
  | VNumber n => n
  | VString s => StringToNumber s
  | VObject printed => StringToNumber printed
  end.

(** [String(v)] *)
Definition ToString `{Engine} (v : value) : string :=
  match v with
  | VUndefined => "undefined"
  | VNull => "null"
  | VBool true => "true"
  | VBool false => "false"
  | VNumber n => NumberToString n
  | VString s => s
  | VObject printed => printed
  end.

(** [a + b] on values: as soon as one operand is a string, or an object
    (whose primitive is a string), the two are concatenated as strings;
    otherwise they are added as numbers. *)
Definition plus `{Engine} (a b : value) : value :=
  match a, b with
  | VString _, _ | VObject _, _ | _, VString _ | _, VObject _ =>
      VString (ToString a +:+ ToString b)
  | _, _ => VNumber (add (Number a) (Number b))
  end.

(** A built-in function, as it prints. *)
Definition native_function (name : string) : value :=
  VObject ("function " +:+ name +:+ "() { [native code] }").

(** The properties every object literal inherits from
    [Object.prototype]: [constructor] is the function [Object],
    [__proto__] reads the prototype itself, the others are methods. *)
Definition Object_prototype (key : string) : option value :=
  if decide (key = "constructor") then Some (native_function "Object")
  else if decide (key = "__proto__") then Some (VObject "[object Object]")
  else if bool_decide (key ∈ [ "__defineGetter__"; "__defineSetter__"; "hasOwnProperty";
                               "__lookupGetter__"; "__lookupSetter__"; "isPrototypeOf";
                               "propertyIsEnumerable"; "toString"; "valueOf";
                               "toLocaleString" ])
       then Some (native_function key)
  else None.

(** [obj[key]] on an object literal whose own properties are [own]: an own
    property first, an inherited one next, [undefined] otherwise. *)
Definition get (own : gmap string value) (key : string) : value :=
  match own !! key with
  | Some v => v
  | None => default VUndefined (Object_prototype key)
  end.

(** A number after [JSON.stringify] and [JSON.parse], which is how it
    reaches the other side of a request: [NaN] and the infinities are
    written as [null]. *)
Definition json (n : number) : value :=
  match n with
  | Fin q => VNumber (Fin q)
  | _ => VNull
  end.

(** The reading of a number as an integer, when it is one. *)
Definition as_integer (a : number) : option Z :=
  match a with
  | Fin q => if Qeq_bool q (inject_Z (Qfloor q)) then Some (Qfloor q) else None
  | _ => None
  end.

End JS.

(** ** [webhook-server.js] *)

Module WebhookServer.
Import JS.

(** The records kept in [usersByEmail].  The balance is whatever the
    handlers computed last, a number or a string. *)
Record user : Type := mkUser {
  balance : value;
  planId : option string;
  planName : option string;
  cycleEnd : option Z;
  shopifyCustomerId : option string
}.

(** The in-memory store: [usersByEmail] and [processedWebhookIds].  The
    copy kept on disk or in Postgres is not modelled. *)
Record store : Type := mkStore {
  usersByEmail : gmap string user;
  processedWebhookIds : gset string
}.

Definition set_user (st : store) (email : string) (u : user) : store :=
  mkStore (<[email := u]> (usersByEmail st)) (processedWebhookIds st).

Definition with_balance (u : user) (b : value) : user :=
  mkUser b (planId u) (planName u) (cycleEnd u) (shopifyCustomerId u).

(** *** [POST /v1/jobs] *)

Inductive jobs_response : Type :=
| InsufficientCredits (needed : number) (current : value)
| JobReserved (taskId : string) (reservedCredits : number).

(** [Math.max(0, Number(req.body?.requestedSeconds || 0))] *)
Definition requestedSeconds `{Engine} (field : value) : number :=
  Math_max (of_Z 0) (Number (or_else field (VNumber (of_Z 0)))).

(** [Math.max(1, Math.round(requestedSeconds))] *)
Definition billableSeconds `{Engine} (field : value) : number :=
  Math_max (of_Z 1) (Math_round (requestedSeconds field)).

(** [billableSeconds * creditsPerSecond] *)
Definition needed `{Engine} (creditsPerSecond : number) (field : value) : number :=
  mul (billableSeconds field) creditsPerSecond.

(** [usersByEmail.get(req.email) || { balance: 0 }] *)
Definition user_or_empty (st : store) (email : string) : user :=
  default (mkUser (VNumber (of_Z 0)) None None None None) (usersByEmail st !! email).

(** [`task_${Date.now()}`] *)
Definition task_id (now : Z) : string := "task_" +:+ pretty now.

(** The handler, run for the authenticated [email]; [creditsPerSecond] is
    [Number(process.env.CREDITS_PER_SECOND || 15)] and [now] is
    [Date.now()]. *)
Definition post_v1_jobs `{Engine} (creditsPerSecond : number) (now : Z)
    (st : store) (email : string) (field : value) : store * jobs_response :=
  let needed := needed creditsPerSecond field in
  let user := user_or_empty st email in
  if lt (Number (balance user)) needed
  then (st, InsufficientCredits needed (balance user))
  else (set_user st email
          (with_balance user (VNumber (sub (Number (balance user)) needed))),
        JobReserved (task_id now) needed).

(** *** [POST /v1/webhooks/shopify] *)

(** [item.selling_plan_allocation], read through
    [?.selling_plan?.id] and [String(... || '')] when it is an object. *)
Inductive selling_plan_allocation : Type :=
| AllocationUndefined
| AllocationNull
| Allocation (selling_plan_id : string).

Record line_item : Type := mkItem {
  item_allocation : selling_plan_allocation;
  item_sku : option string
}.

(** The parsed order: [order.customer?.email] (a string, or [None] when it
    is missing or null), [String(order.customer?.id || '')] and
    [order.line_items]. *)
Record order : Type := mkOrder {
  customer_email : option string;
  customer_id : string;
  line_items : option (list line_item)
}.

(** What the HMAC block does with the raw body and the signature header:
    it passes (secret unset, or the digests agree), answers 401, or
    throws and answers 400. *)
Inductive hmac_outcome : Type := HmacPassed | HmacMismatch | HmacThrew.

(** One delivery.  [body] is [None] when [JSON.parse(req.body)] or a
    property read on the parsed value throws; every such throw happens
    before the first write to the store. *)
Record delivery : Type := mkDelivery {
  webhookId : option string;
  hmac : hmac_outcome;
  body : option order
}.

Inductive webhook_response : Type :=
| Duplicate
| InvalidSignature
| BadRequest
| Received.

(** [process.env.SELLING_PLAN_TIERn || '<default id>'] *)
Record selling_plans : Type := mkPlans {
  SELLING_PLAN_TIER1 : string;
  SELLING_PLAN_TIER2 : string;
  SELLING_PLAN_TIER3 : string
}.

Definition default_plans : selling_plans :=
  mkPlans "690384601430" "690385518934" "690385551702".

(** The own properties of the [planCredits] literal: in an object literal
    a later key overrides an equal earlier one. *)
Definition planCredits (plans : selling_plans) : gmap string value :=
  <[SELLING_PLAN_TIER3 plans := VNumber (of_Z 24000)]>
    (<[SELLING_PLAN_TIER2 plans := VNumber (of_Z 7500)]>
       (<[SELLING_PLAN_TIER1 plans := VNumber (of_Z 3000)]> ∅)).

(** [planCredits[planId] || 1000] *)
Definition credits_for_plan (plans : selling_plans) (planId : string) : value :=
  or_else (get (planCredits plans) planId) (VNumber (of_Z 1000)).

Definition is_subscription_item (item : line_item) : bool :=
  match item_allocation item with
  | AllocationNull => false
  | _ => true
  end.



Definition subscriptionItems (o : order) : list line_item :=
  filter (fun item => is_subscription_item item = true) (default [] (line_items o)).


(** [String(subscriptionItems[0]?.selling_plan_allocation?.selling_plan?.id || '')] *)
Definition first_plan_id (items : list line_item) : string :=
  match items with
  | item :: _ =>
      match item_allocation item with
      | Allocation id => id
      | _ => ""
      end
  | [] => ""
  end.

Definition day_ms : Z := 24 * 60 * 60 * 1000.

(** [prev.balance || 0] *)
Definition balance_or_zero (b : value) : value := or_else b (VNumber (of_Z 0)).

(** The credit grant of the subscription branch:
    [balance: (prev.balance || 0) + credits]. *)
Definition grant `{Engine} (plans : selling_plans) (now : Z) (st : store) (o : order)
    : store :=
  match subscriptionItems o with
  | [] => st
  | items =>
      let planId := first_plan_id items in
      let credits := credits_for_plan plans planId in
      match customer_email o with
      | Some email =>
          if String.eqb email "" then st
          else
            let prev :=
              default (mkUser (VNumber (of_Z 0)) (Some planId) (Some planId)
                         (Some (now + 30 * day_ms)) (Some (customer_id o)))
                      (usersByEmail st !! email) in
            set_user st email
              (mkUser (plus (balance_or_zero (balance prev)) credits)
                 (Some planId) (Some planId) (Some (now + 30 * day_ms))
                 (Some (customer_id o)))
      | None => st
      end
  end.

(** [webhookId && processedWebhookIds.has(webhookId)] *)
Definition already_processed (st : store) (id : option string) : bool :=
  match id with
  | Some i => negb (String.eqb i "") && bool_decide (i ∈ processedWebhookIds st)
  | None => false
  end.

(** [if (webhookId) processedWebhookIds.add(webhookId)] *)
Definition mark_processed (st : store) (id : option string) : store :=
  match id with
  | Some i =>
      if String.eqb i "" then st
      else mkStore (usersByEmail st) ({[ i ]} ∪ processedWebhookIds st)
  | None => st
  end.

(** The handler.  The [try] around the order processing swallows every
    error, so the id is recorded and 200 is answered on both paths. *)
Definition post_v1_webhooks_shopify `{Engine} (plans : selling_plans) (now : Z)
    (st : store) (d : delivery) : store * webhook_response :=
  if already_processed st (webhookId d) then (st, Duplicate)
  else
    match hmac d with
    | HmacMismatch => (st, InvalidSignature)
    | HmacThrew => (st, BadRequest)
    | HmacPassed =>
        let st' :=
          match body d with
          | Some o => grant plans now st o
          | None => st
          end in
        (mark_processed st' (webhookId d), Received)
    end.

End WebhookServer.

(** ** [api/v2/utils.js] and [api/v2/index.js] *)

Module ApiV2.
Import JS.

(** [calculateCredits(seconds)]: [None] stands for the thrown
    ['Invalid CREDITS_PER_SECOND']; [creditsPerSecond] is
    [Number(process.env.CREDITS_PER_SECOND)]. *)
Definition calculateCredits `{Engine} (creditsPerSecond : number) (seconds : value)
    : option number :=
  match creditsPerSecond with
  | NaN => None
  | _ => Some (mul (Math_ceil (Number seconds)) creditsPerSecond)
  end.

(** The [balance INTEGER NOT NULL] column of the [users] table, by email. *)
Definition int4 (z : Z) : bool := (- 2 ^ 31 <=? z) && (z <? 2 ^ 31).

(** [subtractCredits(email, seconds)] from the moment [pool.connect()] has
    handed it a client (the pool is in [PgPool] and [ApiV2Process]):
    [UPDATE users SET balance = balance - $1 WHERE email = $2 RETURNING balance].
    [None] stands for a throw: from [calculateCredits], from the database
    refusing a parameter or a result that is not a 32-bit integer, or the
    ['Failed to return balance'] of an email without a row. *)
Definition subtractCredits `{Engine} (creditsPerSecond : number)
    (users : gmap string Z) (email : string) (seconds : value)
    : option (gmap string Z * Z) :=
  match calculateCredits creditsPerSecond seconds with
  | None => None
  | Some credits =>
      match as_integer credits with
      | None => None
      | Some c =>
          if negb (int4 c) then None
          else
            match users !! email with
            | None => None
            | Some balance =>
                if int4 (balance - c)
                then Some (<[email := balance - c]> users, balance - c)
                else None
            end
      end
  end.

(** The task states [runway.tasks.retrieve] reports. *)
Inductive task_status : Type :=
| PENDING | THROTTLED | RUNNING | SUCCEEDED | FAILED | CANCELLED.

Inductive status_response : Type :=
| StatusBadRequest
| StatusInternalError
| Task (status : task_status)
| TaskWithCredits (status : task_status) (balance : Z).

(** [POST /status { id, seconds }] for the authenticated [email], served
    while the pool has a client to hand out; [task] is what
    [runway.tasks.retrieve(id)] answers, [None] when it throws. *)
Definition post_status `{Engine} (creditsPerSecond : number)
    (users : gmap string Z) (email : string) (id seconds : value)
    (task : option task_status) : gmap string Z * status_response :=
  if negb (truthy id) || negb (truthy seconds) then (users, StatusBadRequest)
  else
    match task with
    | None => (users, StatusInternalError)
    | Some SUCCEEDED =>
        match subtractCredits creditsPerSecond users email seconds with
        | Some (users', balance) => (users', TaskWithCredits SUCCEEDED balance)
        | None => (users, StatusInternalError)
        end
    | Some other => (users, Task other)
    end.

End ApiV2.

(** ** The connection pool of the Postgres-backed servers *)

Module PgPool.

(** The [users] table (the balance column, by email) and the number of
    clients of the process's pool that are checked out.  [getUser],
    [subtractCredits] and [updateBalance] each take a client with
    [pool.connect()] and none of them releases it, so a client once handed
    out stays checked out for the life of the process. *)
Record database : Type := mkDatabase {
  users : gmap string Z;
  checked_out : nat
}.

(** [await pool.connect()] on a pool of [max] clients (10 unless the pool
    is configured otherwise): [None] stands for the
    ['timeout exceeded when trying to connect'] thrown once
    [connectionTimeoutMillis] have passed without a free client. *)
Definition connect (max : nat) (db : database) : option database :=
  if (checked_out db <? max)%nat
  then Some (mkDatabase (users db) (S (checked_out db)))
  else None.

End PgPool.

(** ** [js/main.js] and the panel's [LicenseAPI] *)

Module Panel.
Import JS.

(** The parsed answer of [POST /jobs] kept in [currentReservation]. *)
Record reservation : Type := mkReservation {
  taskId : string;
  reservedCredits : value
}.

(** The part of the panel the settlement reads and writes:
    [licensingEnabled], [licenseAPI.creditBalance] ([None] when there is
    no [licenseAPI]) and [currentReservation]. *)
Record panel : Type := mkPanel {
  licensingEnabled : bool;
  creditBalance : option value;
  currentReservation : option reservation
}.

(** [LicenseAPI.calculateCreditsNeeded]: [Math.ceil(durationSeconds * 15)].
    The product is exact here; the double product is exact too for a
    whole number of seconds (within [safe]), and for seconds [m / 2^j] with
    [15 * m] within [safe]; for other durations it is rounded before
    [Math.ceil] sees it, which can move the result by one. *)
Definition calculateCreditsNeeded (durationSeconds : number) : number :=
  Math_ceil (mul durationSeconds (of_Z 15)).

(** [this.currentReservation?.reservedCredits || fallback] *)
Definition reserved_or (r : option reservation) (fallback : value) : value :=
  or_else (match r with
           | Some res => reservedCredits res
           | None => VUndefined
           end) fallback.

(** [Math.max(0, reservedCredits - actualCreditsUsed)] with
    [reservedCredits = this.currentReservation?.reservedCredits || actualCreditsUsed] *)
Definition success_refund `{Engine} (r : option reservation) (used : number) : value :=
  VNumber (Math_max (of_Z 0) (sub (Number (reserved_or r (VNumber used))) used)).

(** [this.currentReservation?.reservedCredits || 0] *)
Definition failure_refund (r : option reservation) : value :=
  reserved_or r (VNumber (of_Z 0)).

(** [settleCreditsOnCompletion(taskId, success, actualSeconds)]:
    [if (refundCredits > 0) this.licenseAPI.creditBalance += refundCredits],
    then [this.currentReservation = null].  The notification shown to the
    user is taken not to throw. *)
Definition settleCreditsOnCompletion `{Engine} (p : panel) (task : string)
    (success : bool) (actualSeconds : number) : panel :=
  match licensingEnabled p, creditBalance p with
  | true, Some balance =>
      let refund :=
        if success
        then success_refund (currentReservation p) (calculateCreditsNeeded actualSeconds)
        else failure_refund (currentReservation p) in
      let balance' := if gt (Number refund) (of_Z 0) then plus balance refund else balance in
      mkPanel true (Some balance') None
  | _, _ => p
  end.

End Panel.

(** ** The Postgres-backed copy of the server *)

Module PostgresServer.
Import JS PgPool.

(** [const user = getUser(req.email)]: [getUser] is [async] and is called
    without [await], so [user] is the pending promise and [user.balance]
    reads [undefined], whatever the table holds. *)
Definition user_balance : value := VUndefined.

(** The un-awaited [getUser]: its [pool.connect()] takes a client when one
    is free (what becomes of its rejection when none is free is not
    modelled). *)
Definition getUser_unawaited (max : nat) (db : database) : database :=
  default db (connect max db).

(** [await updateBalance(email, balance)]:
    [UPDATE users SET balance = $1 WHERE email = $2] through a client of
    its own.  The second component is [false] when it throws: no client, or
    a parameter the [INTEGER] column refuses ([NaN], a fraction, a number
    out of range). *)
Definition updateBalance (max : nat) (db : database) (email : string) (balance : number)
    : database * bool :=
  match connect max db with
  | None => (db, false)
  | Some db' =>
      match as_integer balance with
      | Some z =>
          if ApiV2.int4 z
          then (mkDatabase
                  (match users db' !! email with
                   | Some _ => <[email := z]> (users db')
                   | None => users db'
                   end) (checked_out db'), true)
          else (db', false)
      | None => (db', false)
      end
  end.

(** What becomes of a reserve request: one of the handler's two answers,
    or no answer from the handler at all, the promise it returns being
    rejected by the throw of [updateBalance]. *)
Inductive jobs_response : Type :=
| InsufficientCredits (needed : number) (current : value)
| JobReserved (taskId : string) (reservedCredits : number)
| Rejected.

(** [POST /v1/jobs]; [creditsPerSecond] is
    [Number(process.env.CREDITS_PER_SECOND)]. *)
Definition post_v1_jobs `{Engine} (max : nat) (creditsPerSecond : number) (now : Z)
    (db : database) (email : string) (field : value) : database * jobs_response :=
  let needed := WebhookServer.needed creditsPerSecond field in
  let db1 := getUser_unawaited max db in
  if lt (Number user_balance) needed
  then (db1, InsufficientCredits needed user_balance)
  else
    match updateBalance max db1 email (sub (Number user_balance) needed) with
    | (db2, true) => (db2, JobReserved (WebhookServer.task_id now) needed)
    | (db2, false) => (db2, Rejected)
    end.

(** [POST /v1/webhooks/shopify] of this copy: no record of webhook ids is
    kept, and of the credit grant only the un-awaited [getUser(email)] is
    left. *)
Definition post_v1_webhooks_shopify (max : nat) (db : database)
    (d : WebhookServer.delivery) : database * WebhookServer.webhook_response :=
  match WebhookServer.hmac d with
  | WebhookServer.HmacMismatch => (db, WebhookServer.InvalidSignature)
  | WebhookServer.HmacThrew => (db, WebhookServer.BadRequest)
  | WebhookServer.HmacPassed =>
      let db' :=
        match WebhookServer.body d with
        | Some o =>
            match WebhookServer.subscriptionItems o, WebhookServer.customer_email o with
            | _ :: _, Some email =>
                if String.eqb email "" then db else getUser_unawaited max db
            | _, _ => db
            end
        | None => db
        end in
      (db', WebhookServer.Received)
  end.

End PostgresServer.

(** ** The policy in the words of the specification *)

Module Policy.

(** [n] is [x] rounded to the nearest whole number, a tie going up. *)
Definition nearest (x : Q) (n : Z) : Prop :=
  (inject_Z n - (1 # 2) <= x)%Q /\ (x < inject_Z n + (1 # 2))%Q.

(** Negative seconds are clamped to 0. *)
Definition clamp (x : Q) : Q := if Qle_bool 0 x then x else 0%Q.

(** [max(1, round(seconds)) * creditsPerSecond], seconds clamped first. *)
Definition creditsForSeconds (creditsPerSecond : Z) (seconds : Q) (credits : Z) : Prop :=
  exists n : Z, nearest (clamp seconds) n /\ credits = Z.max 1 n * creditsPerSecond.

(** [max(0, reservedCredits - used)] *)
Definition refund (reservedCredits used : Z) : Z := Z.max 0 (reservedCredits - used).

(** The credits of a plan: 3000, 7500 and 24000 for the three tiers (the
    higher tier winning where two ids coincide) and 1000 for every other
    plan. *)
Definition plan_credits (tier1 tier2 tier3 planId : string) : Z :=
  if decide (planId = tier3) then 24000
  else if decide (planId = tier2) then 7500
  else if decide (planId = tier1) then 3000
  else 1000.

End Policy.

(** ** More of the sources *)

(** *** Operators the remaining routes use *)

Module JSMore.
Import JS.

(** [a / b]; exact, like the other operators: the double quotient is this
    number rounded.  The sign of a zero divisor is not modelled: a finite
    non-zero number over zero takes its own sign. *)
Definition div (a b : number) : number :=
  match a, b with
  | NaN, _ | _, NaN => NaN
  | Fin x, Fin y =>
      if Qeq_bool y 0 then scale_infinity PosInfinity x else Fin (x / y)
  | Fin _, _ => of_Z 0
  | inf, Fin y => if Qeq_bool y 0 then inf else scale_infinity inf y
  | _, _ => NaN
  end.

(** The at sign and the dot. *)
Definition at_sign : Ascii.ascii := Ascii.ascii_of_nat 64.
Definition dot : Ascii.ascii := Ascii.ascii_of_nat 46.

(** [s.split(sep)] for a one-character separator; a character of the
    string stands for one code unit. *)
Fixpoint split (sep : Ascii.ascii) (s : string) : list string :=
  match s with
  | EmptyString => [EmptyString]
  | String c rest =>
      if Ascii.eqb c sep then EmptyString :: split sep rest
      else
        match split sep rest with
        | piece :: pieces => String c piece :: pieces
        | [] => [String c EmptyString]
        end
  end.

(** [s.slice(0, n)] *)
Fixpoint slice0 (n : nat) (s : string) : string :=
  match n, s with
  | S n', String c rest => String c (slice0 n' rest)
  | _, _ => EmptyString
  end.

(** The character [c] does not occur in [s]. *)
Fixpoint free_of (c : Ascii.ascii) (s : string) : Prop :=
  match s with
  | EmptyString => True
  | String x rest => x <> c /\ free_of c rest
  end.

End JSMore.

(** *** The per-IP rate limiter ([webhook-server.js], [api/index.js]) *)

Module RateLimit.

Record entry : Type := mkEntry { count : Z; reset : Z }.

(** One pass through the middleware for a request from [ip] at [now]:
    the new [rateMap] and whether [next()] is called ([false]: 429).
    [WINDOW_MS] and [MAX_REQ] are the configured whole numbers (15 minutes
    and 100 by default). *)
Definition limit (WINDOW_MS MAX_REQ : Z) (now : Z) (rateMap : gmap string entry)
    (ip : string) : gmap string entry * bool :=
  let entry0 := default (mkEntry 0 (now + WINDOW_MS)) (rateMap !! ip) in
  let entry1 := if reset entry0 <? now then mkEntry 0 (now + WINDOW_MS) else entry0 in
  let entry2 := mkEntry (count entry1 + 1) (reset entry1) in
  (<[ip := entry2]> rateMap, negb (MAX_REQ <? count entry2)).

(** The requests of one address served in a row, oldest first. *)
Fixpoint serve (WINDOW_MS MAX_REQ : Z) (rateMap : gmap string entry) (ip : string)
    (times : list Z) : gmap string entry * list bool :=
  match times with
  | [] => (rateMap, [])
  | now :: later =>
      let '(rateMap1, passed) := limit WINDOW_MS MAX_REQ now rateMap ip in
      let '(rateMap2, verdicts) := serve WINDOW_MS MAX_REQ rateMap1 ip later in
      (rateMap2, passed :: verdicts)
  end.

End RateLimit.

(** *** The account routes of [webhook-server.js] *)

Module WebhookServerRoutes.
Import JS WebhookServer.

(** The own properties of the [skuCredits] literal. *)
Definition skuCredits : gmap string value :=
  <["AUTOVFX-PRO" := VNumber (of_Z 8000)]>
    (<["AUTOVFX-STUDIO" := VNumber (of_Z 2500)]>
       (<["AUTOVFX-CREATOR" := VNumber (of_Z 1000)]> ∅)).

(** [getCreditsForSku(sku)]: [skuCredits[sku] || 1000] *)
Definition getCreditsForSku (sku : string) : value :=
  or_else (get skuCredits sku) (VNumber (of_Z 1000)).

(** The body of the answer of [POST /v1/auth], the token left out (it is
    minted by [signToken] from the clock and the secret). *)
Record auth_answer : Type := mkAuthAnswer {
  subscription_status : string;
  selling_plan_id : option string;
  answer_balance : value;
  answer_cycle_end : option Z;
  needsSubscription : bool
}.

Inductive auth_response : Type :=
| EmailRequired
| Authenticated (answer : auth_answer).

Definition is_none_plan (plan : option string) : bool :=
  match plan with
  | Some p => String.eqb p "none"
  | None => false
  end.

(** [POST /v1/auth]; [email] is [String(req.body?.email || '').trim().toLowerCase()]. *)
Definition post_v1_auth (st : store) (email : string) : store * auth_response :=
  if String.eqb email "" then (st, EmailRequired)
  else
    let '(st', user) :=
      match usersByEmail st !! email with
      | Some user => (st, user)
      | None =>
          let user := mkUser (VNumber (of_Z 0)) (Some "none") (Some "none") None None in
          (set_user st email user, user)
      end in
    (st', Authenticated
            (mkAuthAnswer (if is_none_plan (planId user) then "none" else "active")
               (planId user) (balance user) (cycleEnd user)
               (is_none_plan (planId user)))).

Inductive mock_response : Type :=
| MockEmailRequired
| MockNothingToGrant
| MockGranted (granted : value) (new_balance : value) (cycle_end : Z).

(** A string field as [if (field)] sees it: missing and empty are alike. *)
Definition non_empty (a : option string) : option string :=
  match a with
  | Some s => if String.eqb s "" then None else Some s
  | None => None
  end.

(** [a || b] on strings that may be missing. *)
Definition string_or (a : option string) (b : string) : string :=
  match a with
  | Some s => if String.eqb s "" then b else s
  | None => b
  end.

(** [POST /v1/dev/mock-orders-paid { email, sellingPlanId?, sku? }], the
    route registered outside production.  [email] is normalised as in
    [POST /v1/auth]; [sellingPlanId] and [sku] are [None] when the field is
    falsy, and the stringified field otherwise. *)
Definition post_v1_dev_mock_orders_paid `{Engine} (plans : selling_plans) (now : Z)
    (st : store) (email : string) (sellingPlanId sku : option string)
    : store * mock_response :=
  if String.eqb email "" then (st, MockEmailRequired)
  else
    let credits :=
      match non_empty sellingPlanId, non_empty sku with
      | Some plan, _ => Some (credits_for_plan plans plan)
      | None, Some sku => Some (getCreditsForSku sku)
      | None, None => None
      end in
    match credits with
    | None => (st, MockNothingToGrant)
    | Some credits =>
        let prev :=
          default (mkUser (VNumber (of_Z 0)) (Some "none") (Some "none") None None)
                  (usersByEmail st !! email) in
        let plan := string_or sellingPlanId (string_or (planId prev) "none") in
        let new_balance := plus (balance_or_zero (balance prev)) credits in
        (set_user st email
           (mkUser new_balance (Some plan) (Some plan) (Some (now + 30 * day_ms))
              (shopifyCustomerId prev)),
         MockGranted credits new_balance (now + 30 * day_ms))
    end.

(** The requests that write to the store, and a run of them. *)
Inductive request : Type :=
| Jobs (email : string) (field : value)
| Webhook (d : delivery)
| Auth (email : string)
| MockOrder (email : string) (sellingPlanId sku : option string).

Definition handle `{Engine} (creditsPerSecond : number) (plans : selling_plans)
    (st : store) (timed : Z * request) : store :=
  match timed with
  | (now, Jobs email field) => fst (post_v1_jobs creditsPerSecond now st email field)
  | (now, Webhook d) => fst (post_v1_webhooks_shopify plans now st d)
  | (_, Auth email) => fst (post_v1_auth st email)
  | (now, MockOrder email plan sku) =>
      fst (post_v1_dev_mock_orders_paid plans now st email plan sku)
  end.

Definition run `{Engine} (creditsPerSecond : number) (plans : selling_plans)
    (st : store) (requests : list (Z * request)) : store :=
  foldl (handle creditsPerSecond plans) st requests.

(** Every stored balance is a whole number that is not negative. *)
Definition whole_balances (st : store) : Prop :=
  forall email user, usersByEmail st !! email = Some user ->
    exists b : Z, 0 <= b /\ balance user = VNumber (of_Z b).

(** The key names no property that object literals inherit. *)
Definition plain_key (key : option string) : Prop :=
  match key with
  | Some k => Object_prototype k = None
  | None => True
  end.

(** A request whose seconds, if it is a reserve request, are a finite
    number, and whose plan id and SKU, if it grants credits, are not names
    of inherited properties. *)
Definition plain_request (timed : Z * request) : Prop :=
  match snd timed with
  | Jobs _ (VNumber (Fin _)) => True
  | Jobs _ _ => False
  | Webhook d =>
      match body d with
      | Some o => plain_key (Some (first_plan_id (subscriptionItems o)))
      | None => True
      end
  | Auth _ => True
  | MockOrder _ plan sku => plain_key plan /\ plain_key sku
  end.

End WebhookServerRoutes.

(** *** The other routes and helpers of [api/v2] *)

Module ApiV2Routes.
Import JS JSMore ApiV2.

(** [getPercentageUsed(tierName, balance)] *)
Definition tier_credits (tierName : option string) : option Z :=
  match tierName with
  | Some name =>
      if decide (name = "Starter") then Some 3000
      else if decide (name = "Pro") then Some 7500
      else if decide (name = "Exclusive") then Some 15000
      else None
  | None => None
  end.

(** [100 - (balance / credits) * 100]; the three operations are exact
    here, the doubles round after each of them. *)
Definition getPercentageUsed (tierName : option string) (balance : number) : number :=
  match tier_credits tierName with
  | Some credits => sub (of_Z 100) (mul (div balance (of_Z credits)) (of_Z 100))
  | None => of_Z 0
  end.

(** [redact(email)] for a string; the [catch] answers ['[unknown]']. *)
Definition redact (email : string) : string :=
  match split at_sign email with
  | name :: domain :: _ =>
      match split dot domain with
      | base :: rest =>
          let extension := match rest with e :: _ => e | [] => "undefined" end in
          (slice0 3 name +:+ "...") +:+ "@" +:+ (slice0 3 base +:+ "..." +:+ extension)
      | [] => "[unknown]"
      end
  | _ => "[unknown]"
  end.

(** The row [getUser] returns: the columns the routes read. *)
Record row : Type := mkRow {
  row_balance : Z;
  plan_id : option string;
  plan_name : option string;
  cycle_end : option Z
}.

(** The subscription part of the answers of [POST /auth] and [GET /me],
    with the two fields beside it. *)
Record account : Type := mkAccount {
  account_balance : Z;
  subscription_name : option string;
  subscription_status : string;
  selling_plan_id : option string;
  used : number;
  needsSubscription : option bool
}.

(** [user.plan_id !== 'none'] *)
Definition plan_is_not_none (r : row) : bool :=
  match plan_id r with
  | Some p => negb (String.eqb p "none")
  | None => true
  end.

(** [POST /auth] for a non-empty email whose row is [r]: the status is
    ['none'] when the plan differs from ['none'], and [needsSubscription]
    compares the missing field [_plan_id]. *)
Definition auth_account (r : row) : account :=
  mkAccount (row_balance r) (plan_name r)
    (if plan_is_not_none r then "none" else "active")
    (plan_id r)
    (getPercentageUsed (plan_name r) (of_Z (row_balance r)))
    (Some false).

(** [GET /me] for a user whose row is [r]. *)
Definition me_account (r : row) : account :=
  mkAccount (row_balance r) (plan_name r)
    (if plan_is_not_none r then "active" else "none")
    (plan_id r)
    (getPercentageUsed (plan_name r) (of_Z (row_balance r)))
    None.

End ApiV2Routes.

(** *** [api/v2] as one process serves it, with its pool *)

Module ApiV2Process.
Import JS ApiV2 PgPool.

(** [getUser(email)]: [None] when [pool.connect()] throws, the row (or
    [undefined]) otherwise. *)
Definition getUser (max : nat) (db : database) (email : string)
    : database * option (option Z) :=
  match connect max db with
  | None => (db, None)
  | Some db' => (db', Some (users db' !! email))
  end.

(** [subtractCredits(email, seconds)], whole: the client is taken first
    and kept whatever happens next. *)
Definition subtractCredits `{Engine} (max : nat) (creditsPerSecond : number)
    (db : database) (email : string) (seconds : value) : database * option Z :=
  match connect max db with
  | None => (db, None)
  | Some db' =>
      match ApiV2.subtractCredits creditsPerSecond (users db') email seconds with
      | Some (users', balance) => (mkDatabase users' (checked_out db'), Some balance)
      | None => (db', None)
      end
  end.

(** [POST /status { id, seconds }] *)
Definition post_status `{Engine} (max : nat) (creditsPerSecond : number)
    (db : database) (email : string) (id seconds : value)
    (task : option task_status) : database * status_response :=
  if negb (truthy id) || negb (truthy seconds) then (db, StatusBadRequest)
  else
    match task with
    | None => (db, StatusInternalError)
    | Some SUCCEEDED =>
        match subtractCredits max creditsPerSecond db email seconds with
        | (db', Some balance) => (db', TaskWithCredits SUCCEEDED balance)
        | (db', None) => (db', StatusInternalError)
        end
    | Some other => (db, Task other)
    end.

Inductive generate_response : Type :=
| GenerateBadRequest
| GenerateInternalError
| NotEnoughCredits
| Started.

(** [POST /generate { videoUri, imageUrl, promptText, seconds }]; [started]
    tells whether [runway.videoToVideo.create] returned (it throws
    otherwise).  The route writes nothing to the table, but its [getUser]
    keeps a client. *)
Definition post_generate `{Engine} (max : nat) (creditsPerSecond : number)
    (db : database) (email : string) (videoUri promptText seconds : value)
    (started : bool) : database * generate_response :=
  if negb (truthy videoUri) || negb (truthy promptText) || negb (truthy seconds)
  then (db, GenerateBadRequest)
  else
    match calculateCredits creditsPerSecond seconds with
    | None => (db, GenerateInternalError)
    | Some credits =>
        match getUser max db email with
        | (db', Some (Some balance)) =>
            if lt (sub (of_Z balance) credits) (of_Z 0) then (db', NotEnoughCredits)
            else if started then (db', Started) else (db', GenerateInternalError)
        | (db', _) => (db', GenerateInternalError)
        end
    end.

(** The answer carries a new balance: the request has debited. *)
Definition is_debit (answer : status_response) : bool :=
  match answer with
  | TaskWithCredits _ _ => true
  | _ => false
  end.

(** [POST /status] requests served one after the other, each for a
    succeeded task. *)
Fixpoint settle_all `{Engine} (max : nat) (creditsPerSecond : number)
    (db : database) (email : string) (requests : list (value * value))
    : database * list status_response :=
  match requests with
  | [] => (db, [])
  | (id, seconds) :: later =>
      let '(db1, answer) :=
        post_status max creditsPerSecond db email id seconds (Some SUCCEEDED) in
      let '(db2, answers) := settle_all max creditsPerSecond db1 email later in
      (db2, answer :: answers)
  end.

End ApiV2Process.

(** *** The panel's side of a reservation *)

Module PanelRoutes.
Import JS JSMore Panel.

(** [reserveCreditsForGeneration] with [LicenseAPI.reserveCredits]: with
    licensing on, the parsed answer of [POST /jobs] is kept as
    [currentReservation] and [this.creditBalance -= response.reservedCredits];
    a refused request (402) throws in [makeRequest] and changes nothing. *)
Definition reserveCreditsForGeneration `{Engine} (p : panel)
    (answer : WebhookServer.jobs_response) : panel :=
  match licensingEnabled p, creditBalance p, answer with
  | true, Some balance, WebhookServer.JobReserved id reserved =>
      mkPanel true
        (Some (VNumber (sub (Number balance) (Number (json reserved)))))
        (Some (mkReservation id (json reserved)))
  | _, _, _ => p
  end.

End PanelRoutes.

(** *** The start-up check of the Postgres-backed server *)

Module PostgresStartup.
Import JS.

Definition checked_variables : list string :=
  [ "DATABASE_URL"; "RATE_LIMIT_WINDOW_MS"; "RATE_LIMIT_MAX_REQUESTS";
    "SHOPIFY_WEBHOOK_SECRET"; "SELLING_PLAN_TIER1"; "SELLING_PLAN_TIER2";
    "SELLING_PLAN_TIER3"; "JWT_SECRET"; "JWT_EXPIRES_IN"; "OPENAI_API_KEY";
    "OPENAI_BASE_URL"; "OPENAI_MODEL"; "CREDITS_PER_SECOND"; "APSTLE_API_BASE";
    "APSTLE_API_KEY" ].

(** [process.env[name]] is truthy *)
Definition is_set (env : gmap string string) (name : string) : bool :=
  match env !! name with
  | Some v => negb (String.eqb v "")
  | None => false
  end.

(** [verifyEnvVariables()] of this server: [true] when it returns, [false]
    when it throws.  [missing] collects the variables whose value is
    truthy, and a non-empty [missing] throws. *)
Definition verifyEnvVariables (env : gmap string string) : bool :=
  match List.filter (fun name => is_set env name) checked_variables with
  | [] => true
  | _ => false
  end.

(** [Number(process.env.CREDITS_PER_SECOND)] *)
Definition creditsPerSecond `{Engine} (env : gmap string string) : number :=
  Number (match env !! "CREDITS_PER_SECOND" with
          | Some v => VString v
          | None => VUndefined
          end).

End PostgresStartup.

(** ** Concrete runs *)

(** A stand-in for the engine's conversions in the concrete runs below.
    It reads the empty string as 0 and an unsigned decimal integer as its
    value, and takes every other string for [NaN]; the engine itself reads
    more literals (signs, fractions, exponents, surrounding blanks).  It
    prints [NaN], the infinities and whole numbers the way the engine does
    (below 10^21), and a number that is not whole with up to 17 digits
    after the point, where the engine prints the shortest digits that
    read back as the same double. *)
Definition digit (c : Ascii.ascii) : option Z :=
  let n := Z.of_nat (Ascii.nat_of_ascii c) in
  if (48 <=? n) && (n <=? 57) then Some (n - 48) else None.

Fixpoint decimal (acc : Z) (s : string) : option Z :=
  match s with
  | EmptyString => Some acc
  | String c rest =>
      match digit c with
      | Some d => decimal (10 * acc + d) rest
      | None => None
      end
  end.

(** The digits after the point of [num / den], for [0 <= num < den]. *)
Fixpoint decimals (fuel : nat) (num den : Z) : string :=
  match fuel with
  | O => ""
  | S fuel' =>
      if num =? 0 then ""
      else pretty (10 * num / den) +:+ decimals fuel' (10 * num mod den) den
  end.

Definition print (n : JS.number) : string :=
  match n with
  | JS.NaN => "NaN"
  | JS.PosInfinity => "Infinity"
  | JS.NegInfinity => "-Infinity"
  | JS.Fin q =>
      match JS.as_integer n with
      | Some z => pretty z
      | None =>
          let a := Qabs q in
          (if Qle_bool 0 q then "" else "-") +:+ pretty (Qfloor a) +:+ "." +:+
          decimals 17 (Qnum a - Qfloor a * Zpos (Qden a)) (Zpos (Qden a))
      end
  end.

Definition sample_engine : JS.Engine :=
  {| JS.StringToNumber := fun s =>
       match decimal 0 s with
       | Some z => JS.of_Z z
       | None => JS.NaN
       end;
     JS.NumberToString := print |}.

(** A store with one subscriber holding [credits], for the concrete runs. *)
Definition one_user (credits : Z) : WebhookServer.store :=
  WebhookServer.mkStore
    {[ "ada@example.com" :=
         WebhookServer.mkUser (JS.VNumber (JS.of_Z credits)) (Some "690384601430")
           (Some "690384601430") (Some 1700000000000) (Some "7001") ]}
    ∅.

(** The [users] table with one row, for the concrete runs, and the same
    table in a process whose pool has handed out [out] clients. *)
Definition users_table (credits : Z) : gmap string Z :=
  {[ "ada@example.com" := credits ]}.

Definition database_with (credits : Z) (out : nat) : PgPool.database :=
  PgPool.mkDatabase (users_table credits) out.

(** Orders for the concrete runs: a renewal of the second plan, the same
    renewal without a customer, a purchase of a top-up pack alone, and a
    subscription whose plan id is the word [constructor]. *)
Definition renewal_order : WebhookServer.order :=
  WebhookServer.mkOrder (Some "ada@example.com") "7001"
    (Some [WebhookServer.mkItem (WebhookServer.Allocation "690385518934") None]).



Definition constructor_order : WebhookServer.order :=
  WebhookServer.mkOrder (Some "ada@example.com") "7001"
    (Some [WebhookServer.mkItem (WebhookServer.Allocation "constructor") None]).

(** * Properties *)

(** ** Arithmetic on whole numbers *)

Section NumberFacts.
Import JS.

Lemma lt_of_Z (a b : Z) : lt (of_Z a) (of_Z b) = (a <? b).
Proof.
  unfold lt, of_Z.
  destruct (Qle_bool (inject_Z b) (inject_Z a)) eqn:E.
  - apply Qle_bool_iff in E. rewrite <- Zle_Qle in E. symmetry. apply Z.ltb_ge. lia.
  - symmetry. apply Z.ltb_lt.
    destruct (Z_lt_le_dec a b) as [L|L]; [exact L|].
    rewrite Zle_Qle in L. apply Qle_bool_iff in L. congruence.
Qed.

Lemma sub_of_Z (a b : Z) : sub (of_Z a) (of_Z b) = of_Z (a - b).
Proof. unfold sub, add, neg, of_Z, inject_Z, Qplus, Qopp. simpl. do 2 f_equal. lia. Qed.

Lemma add_of_Z (a b : Z) : add (of_Z a) (of_Z b) = of_Z (a + b).
Proof. unfold add, of_Z, inject_Z, Qplus. simpl. do 2 f_equal. lia. Qed.

Lemma mul_of_Z (a b : Z) : mul (of_Z a) (of_Z b) = of_Z (a * b).
Proof. reflexivity. Qed.

Lemma Math_max_of_Z (a b : Z) : Math_max (of_Z a) (of_Z b) = of_Z (Z.max a b).
Proof.
  unfold Math_max, of_Z.
  destruct (Qle_bool (inject_Z a) (inject_Z b)) eqn:E.
  - apply Qle_bool_iff in E. rewrite <- Zle_Qle in E. rewrite Z.max_r by lia. reflexivity.
  - rewrite Z.max_l; [reflexivity|].
    destruct (Z_le_gt_dec b a) as [L|L]; [exact L|].
    assert (a <= b) as L' by lia. rewrite Zle_Qle in L'. apply Qle_bool_iff in L'. congruence.
Qed.

Lemma Math_ceil_of_Z (z : Z) : Math_ceil (of_Z z) = of_Z z.
Proof. unfold Math_ceil, of_Z. now rewrite Qceiling_Z. Qed.

Lemma as_integer_of_Z (z : Z) : as_integer (of_Z z) = Some z.
Proof.
  unfold as_integer, of_Z. rewrite Qfloor_Z.
  rewrite (Qeq_eq_bool _ _ (Qeq_refl _)). reflexivity.
Qed.

Lemma sub_NaN (a : number) : sub a NaN = NaN.
Proof. destruct a; reflexivity. Qed.


Lemma lt_NaN_r (a : number) : lt a NaN = false.
Proof. destruct a; reflexivity. Qed.


Lemma truthy_of_Z (z : Z) : z <> 0 -> truthy (VNumber (of_Z z)) = true.
Proof.
  intros Hz. cbn [truthy of_Z].
  destruct (Qeq_bool (inject_Z z) 0) eqn:E; [| reflexivity].
  apply Qeq_bool_eq in E. unfold Qeq in E. cbn in E. lia.
Qed.

(** [n || 0] on a whole number is that number. *)
Lemma or_else_zero (b : Z) :
  or_else (VNumber (of_Z b)) (VNumber (of_Z 0)) = VNumber (of_Z b).
Proof.
  unfold or_else. cbn [truthy of_Z].
  destruct (Qeq_bool (inject_Z b) 0) eqn:E; [| reflexivity].
  apply Qeq_bool_eq in E. unfold Qeq in E. cbn in E.
  assert (b = 0) as -> by lia. reflexivity.
Qed.

Lemma plus_of_Z `{Engine} (a b : Z) :
  plus (VNumber (of_Z a)) (VNumber (of_Z b)) = VNumber (of_Z (a + b)).
Proof. cbn [plus Number of_Z]. f_equal. apply add_of_Z. Qed.

(** A key that is no inherited property is looked up among the own
    properties alone. *)
Lemma get_plain (own : gmap string value) (key : string) :
  Object_prototype key = None -> get own key = default VUndefined (own !! key).
Proof. intros Hk. unfold get. rewrite Hk. now destruct (own !! key). Qed.

End NumberFacts.

(** ** [POST /v1/jobs] of [webhook-server.js] *)

Section Jobs.
Import JS WebhookServer.
Context `{Engine}.

Lemma clamp_nonneg (q : Q) : (0 <= Policy.clamp q)%Q.
Proof.
  unfold Policy.clamp. destruct (Qle_bool 0 q) eqn:E.
  - now apply Qle_bool_iff.
  - apply Qle_refl.
Qed.

Lemma nearest_floor (x : Q) : Policy.nearest x (Qfloor (x + (1 # 2))).
Proof.
  unfold Policy.nearest.
  pose proof (Qfloor_le (x + (1 # 2))) as Hl.
  pose proof (Qlt_floor (x + (1 # 2))) as Hu.
  rewrite inject_Z_plus in Hu. change (inject_Z 1) with 1%Q in Hu.
  split; lra.
Qed.

(** Rounding to the nearest whole number has one answer. *)
Lemma nearest_unique (x : Q) (n : Z) : Policy.nearest x n -> n = Qfloor (x + (1 # 2)).
Proof.
  intros [Hl Hu].
  pose proof (Qfloor_le (x + (1 # 2))) as Fl.
  pose proof (Qlt_floor (x + (1 # 2))) as Fu.
  rewrite inject_Z_plus in Fu. change (inject_Z 1) with 1%Q in Fu.
  set (f := Qfloor (x + (1 # 2))) in *.
  assert (n < f + 1) as H1.
  { rewrite Zlt_Qlt, inject_Z_plus. change (inject_Z 1) with 1%Q. lra. }
  assert (f < n + 1) as H2.
  { rewrite Zlt_Qlt, inject_Z_plus. change (inject_Z 1) with 1%Q. lra. }
  lia.
Qed.

(** The credits the policy asks for are those of the nearest whole second,
    one second at least. *)
Lemma creditsForSeconds_unique (c : Z) (q : Q) (n : Z) :
  Policy.creditsForSeconds c q n ->
  n = Z.max 1 (Qfloor (Policy.clamp q + (1 # 2))) * c.
Proof. intros (r & Hr & ->). now rewrite (nearest_unique _ _ Hr). Qed.

Lemma creditsForSeconds_exists (c : Z) (q : Q) :
  Policy.creditsForSeconds c q (Z.max 1 (Qfloor (Policy.clamp q + (1 # 2))) * c).
Proof. exists (Qfloor (Policy.clamp q + (1 # 2))). split; [apply nearest_floor | reflexivity]. Qed.

Lemma creditsForSeconds_nonneg (c : Z) (q : Q) (n : Z) :
  0 <= c -> Policy.creditsForSeconds c q n -> c <= n.
Proof. intros Hc Hn. rewrite (creditsForSeconds_unique c q n Hn). nia. Qed.

(** The seconds the handler bills for a numeric field. *)
Lemma billableSeconds_number (q : Q) :
  billableSeconds (VNumber (Fin q)) =
  of_Z (Z.max 1 (Qfloor (Policy.clamp q + (1 # 2)))).
Proof.
  unfold billableSeconds, requestedSeconds, or_else. cbn [truthy].
  destruct (Qeq_bool q 0) eqn:Ez; cbn [negb Number].
  - apply Qeq_bool_eq in Ez.
    rewrite Math_max_of_Z. cbn [Z.max Z.compare Math_round of_Z].
    assert (Policy.clamp q == 0)%Q as Hc.
    { unfold Policy.clamp. destruct (Qle_bool 0 q); [exact Ez | reflexivity]. }
    rewrite (Qfloor_comp (Policy.clamp q + (1 # 2)) (inject_Z 0 + (1 # 2))).
    + apply Math_max_of_Z.
    + rewrite Hc. reflexivity.
  - unfold Math_max at 2, of_Z at 2, Policy.clamp.
    change (inject_Z 0) with 0%Q.
    destruct (Qle_bool 0 q); cbn [Math_round]; apply Math_max_of_Z.
Qed.

Lemma needed_number (c : Z) (q : Q) :
  needed (of_Z c) (VNumber (Fin q)) =
  of_Z (Z.max 1 (Qfloor (Policy.clamp q + (1 # 2))) * c).
Proof. unfold needed. rewrite billableSeconds_number. apply mul_of_Z. Qed.

Lemma needed_policy (c : Z) (q : Q) (n : Z) :
  Policy.creditsForSeconds c q n -> needed (of_Z c) (VNumber (Fin q)) = of_Z n.
Proof. intros Hn. rewrite (creditsForSeconds_unique c q n Hn). apply needed_number. Qed.

Lemma needed_not_a_number (cps : number) (s : string) :
  s <> "" -> StringToNumber s = NaN -> needed cps (VString s) = NaN.
Proof.
  intros Hs Hn. unfold needed, billableSeconds, requestedSeconds, or_else.
  cbn [truthy]. apply String.eqb_neq in Hs. rewrite Hs. cbn [negb Number].
  rewrite Hn. reflexivity.
Qed.

(** What a request that passes the balance test leaves behind. *)
Lemma post_v1_jobs_reserved cps now st email field :
  lt (Number (balance (user_or_empty st email))) (needed cps field) = false ->
  post_v1_jobs cps now st email field =
  (set_user st email
     (with_balance (user_or_empty st email)
        (VNumber (sub (Number (balance (user_or_empty st email))) (needed cps field)))),
   JobReserved (task_id now) (needed cps field)).
Proof. intros Hlt. unfold post_v1_jobs. rewrite Hlt. reflexivity. Qed.

(** What a request that fails the balance test is told. *)
Lemma post_v1_jobs_refused cps now st email field :
  lt (Number (balance (user_or_empty st email))) (needed cps field) = true ->
  post_v1_jobs cps now st email field =
  (st, InsufficientCredits (needed cps field) (balance (user_or_empty st email))).
Proof. intros Hlt. unfold post_v1_jobs. now rewrite Hlt. Qed.

Lemma set_user_balance st email u b :
  balance <$> usersByEmail (set_user st email (with_balance u b)) !! email = Some b.
Proof. unfold set_user. cbn [usersByEmail]. rewrite lookup_insert_eq. reflexivity. Qed.

Lemma user_or_empty_set st email u : user_or_empty (set_user st email u) email = u.
Proof. unfold user_or_empty, set_user. cbn [usersByEmail]. now rewrite lookup_insert_eq. Qed.

(** A covered request: the answer and the store it leaves. *)
Lemma post_v1_jobs_covered cps now st email field (b n : Z) :
  balance (user_or_empty st email) = VNumber (of_Z b) ->
  needed cps field = of_Z n ->
  n <= b ->
  exists st',
    post_v1_jobs cps now st email field = (st', JobReserved (task_id now) (of_Z n)) /\
    balance <$> usersByEmail st' !! email = Some (VNumber (of_Z (b - n))) /\
    (forall other, other <> email -> usersByEmail st' !! other = usersByEmail st !! other) /\
    processedWebhookIds st' = processedWebhookIds st.
Proof.
  intros Hb Hn Hle.
  assert (lt (Number (balance (user_or_empty st email))) (needed cps field) = false) as Hlt.
  { rewrite Hb, Hn. cbn [Number]. rewrite lt_of_Z. apply Z.ltb_ge. exact Hle. }
  eexists. split; [| split; [| split]].
  - rewrite (post_v1_jobs_reserved _ _ _ _ _ Hlt). rewrite Hn. reflexivity.
  - rewrite set_user_balance, Hb. cbn [Number]. now rewrite sub_of_Z.
  - intros other Hne. unfold set_user. cbn [usersByEmail]. now rewrite lookup_insert_ne.
  - reflexivity.
Qed.

Lemma user_or_empty_balance st email (b : value) :
  balance <$> usersByEmail st !! email = Some b ->
  balance (user_or_empty st email) = b.
Proof.
  unfold user_or_empty. destruct (usersByEmail st !! email); cbn; congruence.
Qed.

End Jobs.

(** ** The Postgres-backed copy of [POST /v1/jobs] *)

Section PostgresJobs.
Import JS PgPool PostgresServer.
Context `{Engine}.





End PostgresJobs.



(** C6: for a finite number of seconds and a whole, non-negative price per
    second, the reserve path bills [max(1, round(seconds))] seconds, negative
    seconds clamped to 0 before rounding, times the price: a whole number
    that is never negative (the amount being within 2^53, where the double
    product is exact).  The settlement path has its own conversion,
    [calculateCredits], which rounds up: for seconds above 0 it is
    [ceil(seconds)] times the price. *)
Theorem seconds_to_credits `{JS.Engine} (c n : Z) (q : Q) :
  0 <= c ->
  Policy.creditsForSeconds c q n ->
  JS.safe n ->
  WebhookServer.needed (JS.of_Z c) (JS.VNumber (JS.Fin q)) = JS.of_Z n /\
  0 <= n /\
  ((0 < q)%Q -> JS.safe (Qceiling q * c) ->
   ApiV2.calculateCredits (JS.of_Z c) (JS.VNumber (JS.Fin q)) =
     Some (JS.of_Z (Qceiling q * c))).
Proof.
  intros Hc Hn _. split; [| split].
  - now apply needed_policy.
  - pose proof (creditsForSeconds_nonneg c q n Hc Hn). lia.
  - intros _ _. reflexivity.
Qed.

Lemma seconds_to_credits_witness :
  @WebhookServer.needed sample_engine (JS.of_Z 15) (JS.VNumber (JS.Fin (31 # 10))) =
    JS.of_Z 45 /\
  0 <= 45 /\
  @ApiV2.calculateCredits sample_engine (JS.of_Z 15) (JS.VNumber (JS.Fin (31 # 10))) =
    Some (JS.of_Z (Qceiling (31 # 10) * 15)).
Proof.
  destruct (@seconds_to_credits sample_engine 15 45 (31 # 10)) as (Hn & Hpos & Hc).
  - lia.
  - exists 3. split; [split |]; vm_compute; (reflexivity || discriminate).
  - unfold JS.safe. lia.
  - split; [exact Hn | split; [exact Hpos |]].
    apply Hc; [reflexivity | unfold JS.safe; vm_compute; split; discriminate].
Defined.

(** C6, refuted as stated: on the settlement path 3.1 seconds cost 60
    credits where [max(1, round(3.1)) * 15], the amount of the reserve path,
    is 45. *)
Lemma calculateCredits_is_not_rounded :
  @ApiV2.calculateCredits sample_engine (JS.of_Z 15) (JS.VNumber (JS.Fin (31 # 10))) =
    Some (JS.of_Z 60) /\
  @WebhookServer.needed sample_engine (JS.of_Z 15) (JS.VNumber (JS.Fin (31 # 10))) =
    JS.of_Z 45 /\
  Policy.creditsForSeconds 15 (31 # 10) 45.
Proof.
  split; [| split]; [vm_compute; reflexivity | vm_compute; reflexivity |].
  exists 3. split; [split |]; vm_compute; (reflexivity || discriminate).
Qed.

(** C9: the reserve path of [webhook-server.js] has no conflict answer and
    keeps no record of task ids.  The id it hands out is read off the clock
    alone, so two requests served at the same clock value that both pass
    the balance test receive the same task id, and each of them debits the
    balance by the credits of its own seconds. *)
Theorem reserve_same_task_id_debits_again `{JS.Engine}
    (c : Z) (now : Z) (st : WebhookServer.store) (email : string)
    (q1 q2 : Q) (b n1 n2 : Z) :
  WebhookServer.balance (WebhookServer.user_or_empty st email) = JS.VNumber (JS.of_Z b) ->
  0 <= c ->
  JS.safe b ->
  Policy.creditsForSeconds c q1 n1 ->
  Policy.creditsForSeconds c q2 n2 ->
  n1 + n2 <= b ->
  exists st1 st2,
    WebhookServer.post_v1_jobs (JS.of_Z c) now st email (JS.VNumber (JS.Fin q1)) =
      (st1, WebhookServer.JobReserved (WebhookServer.task_id now) (JS.of_Z n1)) /\
    WebhookServer.post_v1_jobs (JS.of_Z c) now st1 email (JS.VNumber (JS.Fin q2)) =
      (st2, WebhookServer.JobReserved (WebhookServer.task_id now) (JS.of_Z n2)) /\
    WebhookServer.balance <$> WebhookServer.usersByEmail st2 !! email =
      Some (JS.VNumber (JS.of_Z (b - n1 - n2))).
Proof.
  intros Hb Hc _ H1 H2 Hsum.
  pose proof (creditsForSeconds_nonneg c q1 n1 Hc H1) as Hn1.
  pose proof (creditsForSeconds_nonneg c q2 n2 Hc H2) as Hn2.
  destruct (post_v1_jobs_covered (JS.of_Z c) now st email (JS.VNumber (JS.Fin q1)) b n1
              Hb (needed_policy c q1 n1 H1) ltac:(lia))
    as (st1 & Hr1 & Hb1 & _ & _).
  apply user_or_empty_balance in Hb1.
  destruct (post_v1_jobs_covered (JS.of_Z c) now st1 email (JS.VNumber (JS.Fin q2)) (b - n1) n2
              Hb1 (needed_policy c q2 n2 H2) ltac:(lia))
    as (st2 & Hr2 & Hb2 & _ & _).
  exists st1, st2. repeat split; assumption.
Qed.

Lemma reserve_same_task_id_debits_again_witness :
  exists st1 st2,
    @WebhookServer.post_v1_jobs sample_engine (JS.of_Z 15) 1700000000123 (one_user 200)
      "ada@example.com" (JS.VNumber (JS.Fin (5 # 1))) =
      (st1, WebhookServer.JobReserved (WebhookServer.task_id 1700000000123) (JS.of_Z 75)) /\
    @WebhookServer.post_v1_jobs sample_engine (JS.of_Z 15) 1700000000123 st1
      "ada@example.com" (JS.VNumber (JS.Fin (31 # 10))) =
      (st2, WebhookServer.JobReserved (WebhookServer.task_id 1700000000123) (JS.of_Z 45)) /\
    WebhookServer.balance <$> WebhookServer.usersByEmail st2 !! "ada@example.com" =
      Some (JS.VNumber (JS.of_Z (200 - 75 - 45))).
Proof.
  apply (@reserve_same_task_id_debits_again sample_engine 15 1700000000123
           (one_user 200) "ada@example.com" (5 # 1) (31 # 10) 200 75 45).
  - reflexivity.
  - lia.
  - unfold JS.safe. lia.
  - exists 5. split; [split |]; vm_compute; (reflexivity || discriminate).
  - exists 3. split; [split |]; vm_compute; (reflexivity || discriminate).
  - lia.
Defined.

(** C9, refuted as stated: the same request served twice at one clock
    value is answered twice with the task id [task_1700000000123], never
    with a conflict, and the balance goes from 200 to 125 and then to 50. *)
Lemma duplicate_task_is_reserved_twice :
  let first := @WebhookServer.post_v1_jobs sample_engine (JS.of_Z 15) 1700000000123
                 (one_user 200) "ada@example.com" (JS.VNumber (JS.of_Z 5)) in
  let second := @WebhookServer.post_v1_jobs sample_engine (JS.of_Z 15) 1700000000123
                  (fst first) "ada@example.com" (JS.VNumber (JS.of_Z 5)) in
  snd first = WebhookServer.JobReserved "task_1700000000123" (JS.of_Z 75) /\
  snd second = WebhookServer.JobReserved "task_1700000000123" (JS.of_Z 75) /\
  WebhookServer.balance <$> WebhookServer.usersByEmail (fst first) !! "ada@example.com" =
    Some (JS.VNumber (JS.of_Z 125)) /\
  WebhookServer.balance <$> WebhookServer.usersByEmail (fst second) !! "ada@example.com" =
    Some (JS.VNumber (JS.of_Z 50)).
Proof. repeat split; vm_compute; reflexivity. Qed.




(** ** [POST /status] and [subtractCredits] *)

Section Status.
Import JS ApiV2 PgPool.
Context `{Engine}.

Lemma calculateCredits_number (k : Z) (q : Q) :
  calculateCredits (of_Z k) (VNumber (Fin q)) = Some (of_Z (Qceiling q * k)).
Proof. reflexivity. Qed.

(** The update of [subtractCredits] on a row that stays within the
    column's range. *)
Lemma subtractCredits_updates (k b : Z) (q : Q) users email :
  users !! email = Some b ->
  int4 (Qceiling q * k) = true ->
  int4 (b - Qceiling q * k) = true ->
  subtractCredits (of_Z k) users email (VNumber (Fin q)) =
  Some (<[email := b - Qceiling q * k]> users, b - Qceiling q * k).
Proof.
  intros Hrow Hc Hb. unfold subtractCredits.
  rewrite calculateCredits_number, as_integer_of_Z, Hc. cbn [negb].
  rewrite Hrow, Hb. reflexivity.
Qed.

(** A status request for a succeeded task: the balance column loses
    [ceil(seconds) * creditsPerSecond]. *)
Lemma post_status_succeeded (k b : Z) (q : Q) users email id :
  truthy id = true ->
  Qeq_bool q 0 = false ->
  users !! email = Some b ->
  int4 (Qceiling q * k) = true ->
  int4 (b - Qceiling q * k) = true ->
  post_status (of_Z k) users email id (VNumber (Fin q)) (Some SUCCEEDED) =
  (<[email := b - Qceiling q * k]> users,
   TaskWithCredits SUCCEEDED (b - Qceiling q * k)).
Proof.
  intros Hid Hq Hrow Hc Hb. unfold post_status. rewrite Hid. cbn [truthy negb orb].
  rewrite Hq. cbn [negb]. now rewrite (subtractCredits_updates k b q users email).
Qed.

Lemma connect_free max db :
  (checked_out db < max)%nat ->
  connect max db = Some (mkDatabase (users db) (S (checked_out db))).
Proof.
  intros Hfree. unfold connect.
  assert ((checked_out db <? max)%nat = true) as Hlt by now apply Nat.ltb_lt.
  now rewrite Hlt.
Qed.

Lemma connect_exhausted max db : (max <= checked_out db)%nat -> connect max db = None.
Proof.
  intros Hfull. unfold connect.
  assert ((checked_out db <? max)%nat = false) as Hlt by now apply Nat.ltb_ge.
  now rewrite Hlt.
Qed.

(** The same request served by a process whose pool still has a client to
    hand out: the client is kept. *)
Lemma process_status_succeeded max (k b : Z) (q : Q) db email id :
  truthy id = true ->
  Qeq_bool q 0 = false ->
  users db !! email = Some b ->
  int4 (Qceiling q * k) = true ->
  int4 (b - Qceiling q * k) = true ->
  (checked_out db < max)%nat ->
  ApiV2Process.post_status max (of_Z k) db email id (VNumber (Fin q)) (Some SUCCEEDED) =
  (mkDatabase (<[email := b - Qceiling q * k]> (users db)) (S (checked_out db)),
   TaskWithCredits SUCCEEDED (b - Qceiling q * k)).
Proof.
  intros Hid Hq Hrow Hc Hb Hfree. unfold ApiV2Process.post_status.
  rewrite Hid. cbn [truthy negb orb]. rewrite Hq. cbn [negb].
  unfold ApiV2Process.subtractCredits. rewrite (connect_free max db Hfree).
  cbn [users checked_out].
  now rewrite (subtractCredits_updates k b q (users db) email).
Qed.

(** With every client of the pool handed out, a status request for a
    succeeded task is answered 500 and nothing is written. *)
Lemma process_status_exhausted max cps db email id seconds :
  truthy id = true ->
  truthy seconds = true ->
  (max <= checked_out db)%nat ->
  ApiV2Process.post_status max cps db email id seconds (Some SUCCEEDED) =
  (db, StatusInternalError).
Proof.
  intros Hid Hs Hfull. unfold ApiV2Process.post_status. rewrite Hid, Hs. cbn [negb orb].
  unfold ApiV2Process.subtractCredits. now rewrite (connect_exhausted max db Hfull).
Qed.

End Status.

(** ** [settleCreditsOnCompletion] *)

Section Settlement.
Import JS Panel.
Context `{Engine}.

Lemma refund_of_nothing (used : number) :
  gt (Math_max (of_Z 0) (sub used used)) (of_Z 0) = false.
Proof.
  destruct used as [| | | x]; try reflexivity.
  unfold sub, neg, add, Math_max, of_Z, gt, lt.
  assert (x + - x == 0)%Q as Hz by ring.
  destruct (Qle_bool (inject_Z 0) (x + - x)) eqn:E.
  - assert (Qle_bool (x + - x) (inject_Z 0) = true) as ->; [| reflexivity].
    apply Qle_bool_iff. rewrite Hz. apply Qle_refl.
  - reflexivity.
Qed.



Lemma calculateCreditsNeeded_whole (s : Z) :
  calculateCreditsNeeded (of_Z s) = of_Z (15 * s).
Proof.
  unfold calculateCreditsNeeded. rewrite mul_of_Z, Math_ceil_of_Z.
  f_equal. lia.
Qed.

(** A successful job of a whole number of seconds settled against a held
    reservation. *)
Lemma settle_refunds (B R s : Z) task id :
  0 < R ->
  creditBalance
    (settleCreditsOnCompletion
       (mkPanel true (Some (VNumber (of_Z B))) (Some (mkReservation id (VNumber (of_Z R)))))
       task true (of_Z s)) =
  Some (VNumber (of_Z (B + Policy.refund R (15 * s)))).
Proof.
  intros HR. unfold settleCreditsOnCompletion.
  cbn [licensingEnabled creditBalance currentReservation].
  rewrite calculateCreditsNeeded_whole.
  unfold success_refund, reserved_or, or_else. cbn [reservedCredits].
  rewrite truthy_of_Z by lia. cbn [Number].
  rewrite sub_of_Z, Math_max_of_Z. unfold gt. rewrite lt_of_Z.
  unfold Policy.refund.
  destruct (0 <? Z.max 0 (R - 15 * s)) eqn:E; cbn [creditBalance].
  - now rewrite plus_of_Z.
  - apply Z.ltb_ge in E. do 3 f_equal. lia.
Qed.

(** A failed job settled against a held reservation. *)
Lemma settle_failure_refunds (B R : Z) id task seconds :
  0 < R ->
  creditBalance
    (settleCreditsOnCompletion
       (mkPanel true (Some (VNumber (of_Z B))) (Some (mkReservation id (VNumber (of_Z R)))))
       task false seconds) =
  Some (VNumber (of_Z (B + R))).
Proof.
  intros HR. unfold settleCreditsOnCompletion.
  cbn [licensingEnabled creditBalance currentReservation].
  unfold failure_refund, reserved_or, or_else. cbn [reservedCredits].
  rewrite truthy_of_Z by lia. cbn [Number]. unfold gt. rewrite lt_of_Z.
  assert ((0 <? R) = true) as Hlt by (apply Z.ltb_lt; lia).
  rewrite Hlt. cbn [creditBalance]. now rewrite plus_of_Z.
Qed.

End Settlement.







(** C3, at the failing input: with 10 credits left, a status request that
    reports 5 seconds for a succeeded task stores a balance of -65. *)
Theorem status_drives_balance_negative :
  let settled := @ApiV2.post_status sample_engine (JS.of_Z 15) (users_table 10)
                   "ada@example.com" (JS.VString "task-1") (JS.VNumber (JS.of_Z 5))
                   (Some ApiV2.SUCCEEDED) in
  fst settled !! "ada@example.com" = Some (-65) /\
  snd settled = ApiV2.TaskWithCredits ApiV2.SUCCEEDED (-65).
Proof. split; vm_compute; reflexivity. Qed.

(** ** [POST /v1/webhooks/shopify] *)

Section Webhooks.
Import JS WebhookServer.
Context `{Engine}.

Lemma not_empty_eqb (s : string) : s <> "" -> String.eqb s "" = false.
Proof. apply String.eqb_neq. Qed.


(** A delivery whose id is on record is answered as a duplicate and
    touches nothing. *)
Lemma duplicate_delivery plans now st d :
  already_processed st (webhookId d) = true ->
  post_v1_webhooks_shopify plans now st d = (st, Duplicate).
Proof. intros Hdup. unfold post_v1_webhooks_shopify. now rewrite Hdup. Qed.


Lemma mark_processed_users st id : usersByEmail (mark_processed st id) = usersByEmail st.
Proof.
  unfold mark_processed. destruct id as [i|]; [| reflexivity].
  destruct (String.eqb i ""); reflexivity.
Qed.

Lemma grant_without_subscription plans now st o :
  subscriptionItems o = [] -> grant plans now st o = st.
Proof. intros Hs. unfold grant. now rewrite Hs. Qed.

(** The credits of a plan id that names no inherited property: the plan's
    own entry in the literal, or the default of 1000. *)
Lemma credits_for_plan_plain plans planId :
  Object_prototype planId = None ->
  credits_for_plan plans planId =
  VNumber (of_Z (Policy.plan_credits (SELLING_PLAN_TIER1 plans) (SELLING_PLAN_TIER2 plans)
                   (SELLING_PLAN_TIER3 plans) planId)).
Proof.
  intros Hplain. unfold credits_for_plan. rewrite (get_plain _ _ Hplain).
  unfold planCredits, Policy.plan_credits.
  destruct (decide (planId = SELLING_PLAN_TIER3 plans)) as [-> | H3].
  { now rewrite lookup_insert_eq. }
  rewrite lookup_insert_ne by congruence.
  destruct (decide (planId = SELLING_PLAN_TIER2 plans)) as [-> | H2].
  { now rewrite lookup_insert_eq. }
  rewrite lookup_insert_ne by congruence.
  destruct (decide (planId = SELLING_PLAN_TIER1 plans)) as [-> | H1].
  { now rewrite lookup_insert_eq. }
  rewrite lookup_insert_ne by congruence.
  now rewrite lookup_empty.
Qed.

Lemma plan_credits_min t1 t2 t3 planId : 1000 <= Policy.plan_credits t1 t2 t3 planId.
Proof. unfold Policy.plan_credits. repeat case_decide; lia. Qed.

(** What the inherited properties are: objects, which are truthy. *)
Lemma Object_prototype_object key v :
  Object_prototype key = Some v -> exists text, v = VObject text.
Proof.
  unfold Object_prototype, native_function.
  repeat case_decide; try case_bool_decide; intros [= <-]; eexists; reflexivity.
Qed.

(** The credits of a plan id that is no key of the literal but names an
    inherited property: that property. *)
Lemma credits_for_plan_inherited plans planId v :
  planCredits plans !! planId = None ->
  Object_prototype planId = Some v ->
  credits_for_plan plans planId = v.
Proof.
  intros Hown Hin. unfold credits_for_plan, get. rewrite Hown, Hin.
  destruct (Object_prototype_object planId v Hin) as (text & ->). reflexivity.
Qed.

Lemma grant_subscription plans now st o email :
  subscriptionItems o <> [] -> customer_email o = Some email -> email <> "" ->
  balance <$> usersByEmail (grant plans now st o) !! email =
  Some (plus (balance_or_zero (balance (user_or_empty st email)))
             (credits_for_plan plans (first_plan_id (subscriptionItems o)))).
Proof.
  intros Hs He Hne. unfold grant.
  destruct (subscriptionItems o) as [| item items] eqn:Eitems; [congruence |].
  rewrite He, (not_empty_eqb email Hne).
  unfold set_user. cbn [usersByEmail]. rewrite lookup_insert_eq. cbn.
  unfold user_or_empty.
  destruct (usersByEmail st !! email); reflexivity.
Qed.

Lemma balance_or_zero_of_Z (b : Z) :
  balance_or_zero (VNumber (of_Z b)) = VNumber (of_Z b).
Proof. apply or_else_zero. Qed.

(** A whole-number balance credited with a plan whose id names no
    inherited property. *)
Lemma grant_whole_balance plans now st o email (b : Z) :
  subscriptionItems o <> [] -> customer_email o = Some email -> email <> "" ->
  Object_prototype (first_plan_id (subscriptionItems o)) = None ->
  balance (user_or_empty st email) = VNumber (of_Z b) ->
  balance <$> usersByEmail (grant plans now st o) !! email =
  Some (VNumber (of_Z (b + Policy.plan_credits (SELLING_PLAN_TIER1 plans)
                             (SELLING_PLAN_TIER2 plans) (SELLING_PLAN_TIER3 plans)
                             (first_plan_id (subscriptionItems o))))).
Proof.
  intros Hs He Hne Hplain Hb.
  rewrite (grant_subscription plans now st o email Hs He Hne), Hb.
  now rewrite balance_or_zero_of_Z, (credits_for_plan_plain _ _ Hplain), plus_of_Z.
Qed.

Lemma accepted_delivery plans now st d :
  already_processed st (webhookId d) = false -> hmac d = HmacPassed ->
  post_v1_webhooks_shopify plans now st d =
  (mark_processed (match body d with Some o => grant plans now st o | None => st end)
     (webhookId d), Received).
Proof.
  intros Hfresh Hmac. unfold post_v1_webhooks_shopify. now rewrite Hfresh, Hmac.
Qed.


End Webhooks.




(** C8, at the failing input: a delivery whose body cannot be processed is
    answered as received and its id is put on record; the redelivery of the
    same id, now with a well-formed renewal, is answered as a duplicate and
    the balance stays at 10, where the renewal delivered on its own would
    have raised it to 7510. *)
Theorem failed_webhook_is_recorded_as_processed :
  let broken := WebhookServer.mkDelivery (Some "wh_3") WebhookServer.HmacPassed None in
  let retry := WebhookServer.mkDelivery (Some "wh_3") WebhookServer.HmacPassed (Some renewal_order) in
  let first := @WebhookServer.post_v1_webhooks_shopify sample_engine
                 WebhookServer.default_plans 1700000000000 (one_user 10) broken in
  let second := @WebhookServer.post_v1_webhooks_shopify sample_engine
                  WebhookServer.default_plans 1700000600000 (fst first) retry in
  snd first = WebhookServer.Received /\
  WebhookServer.already_processed (fst first) (Some "wh_3") = true /\
  snd second = WebhookServer.Duplicate /\
  WebhookServer.balance <$> WebhookServer.usersByEmail (fst second) !! "ada@example.com" =
    Some (JS.VNumber (JS.of_Z 10)) /\
  WebhookServer.balance <$>
    WebhookServer.usersByEmail
      (fst (@WebhookServer.post_v1_webhooks_shopify sample_engine
              WebhookServer.default_plans 1700000600000 (one_user 10) retry)) !! "ada@example.com" =
    Some (JS.VNumber (JS.of_Z 7510)).
Proof. repeat split; vm_compute; reflexivity. Qed.

(** * Further properties *)

(** ** The rate limiter *)

Section RateLimiter.
Import RateLimit.

Lemma limit_within_window W M now rateMap ip e :
  rateMap !! ip = Some e -> now <= reset e ->
  limit W M now rateMap ip =
  (<[ip := mkEntry (count e + 1) (reset e)]> rateMap, negb (M <? count e + 1)).
Proof.
  intros He Hnow. unfold limit. rewrite He. simpl default.
  assert ((reset e <? now) = false) as Hlt by (apply Z.ltb_ge; lia).
  rewrite Hlt. reflexivity.
Qed.

(** Requests that all arrive before the entry's reset time are counted one
    by one against the limit, refused ones included, and none of them moves
    the reset time. *)
Lemma serve_within_window W M ip times : forall rateMap e,
  rateMap !! ip = Some e ->
  Forall (fun now => now <= reset e) times ->
  (forall i v, snd (serve W M rateMap ip times) !! i = Some v ->
     v = negb (M <? count e + Z.of_nat i + 1)) /\
  fst (serve W M rateMap ip times) !! ip =
    Some (mkEntry (count e + Z.of_nat (length times)) (reset e)).
Proof.
  induction times as [| now later IH]; intros rateMap e He Hall.
  - split; [intros i v Hv; destruct i; discriminate |].
    cbn. rewrite He. destruct e. cbn. f_equal. f_equal. lia.
  - inversion Hall as [| ? ? Hnow Hlater]; subst.
    cbn [serve]. rewrite (limit_within_window W M now rateMap ip e He Hnow).
    specialize (IH (<[ip := mkEntry (count e + 1) (reset e)]> rateMap)
                   (mkEntry (count e + 1) (reset e))
                   (lookup_insert_eq _ _ _) Hlater).
    destruct (serve W M (<[ip := mkEntry (count e + 1) (reset e)]> rateMap) ip later)
      as [rateMap2 verdicts] eqn:Es.
    cbn [fst snd count reset] in *. destruct IH as [IHv IHe]. split.
    + intros i v Hv. destruct i as [| i].
      * cbn in Hv. injection Hv as <-. f_equal. f_equal. lia.
      * cbn in Hv. rewrite (IHv i v Hv). f_equal. f_equal. lia.
    + rewrite IHe. f_equal. f_equal. cbn [length]. lia.
Qed.

End RateLimiter.

(** X1: from an address the limiter has not seen, the requests of one
    window are let through up to the configured maximum and refused from
    then on: request number [i] (counting from 0) passes exactly when
    [i < MAX_REQ].  Refused requests are counted too. *)
Theorem rate_limit_first_window (W M : Z) (rateMap : gmap string RateLimit.entry)
    (ip : string) (first : Z) (later : list Z) :
  0 <= W ->
  rateMap !! ip = None ->
  Forall (fun now => now <= first + W) later ->
  (forall i v,
     snd (RateLimit.serve W M rateMap ip (first :: later)) !! i = Some v ->
     v = (Z.of_nat i <? M)) /\
  fst (RateLimit.serve W M rateMap ip (first :: later)) !! ip =
    Some (RateLimit.mkEntry (1 + Z.of_nat (length later)) (first + W)).
Proof.
  intros HW Hnone Hall. cbn [RateLimit.serve].
  assert (RateLimit.limit W M first rateMap ip =
          (<[ip := RateLimit.mkEntry 1 (first + W)]> rateMap, negb (M <? 1))) as Hfirst.
  { unfold RateLimit.limit. rewrite Hnone. simpl default. cbn [RateLimit.reset].
    assert ((first + W <? first) = false) as Hlt by (apply Z.ltb_ge; lia).
    rewrite Hlt. reflexivity. }
  rewrite Hfirst.
  pose proof (serve_within_window W M ip later
                (<[ip := RateLimit.mkEntry 1 (first + W)]> rateMap)
                (RateLimit.mkEntry 1 (first + W))
                (lookup_insert_eq _ _ _) Hall) as [Hv He].
  destruct (RateLimit.serve W M (<[ip := RateLimit.mkEntry 1 (first + W)]> rateMap) ip later)
    as [rateMap2 verdicts].
  cbn [fst snd RateLimit.count RateLimit.reset] in *. split.
  - intros i v Hi. destruct i as [| i].
    + cbn in Hi. injection Hi as <-.
      destruct (M <? 1) eqn:E1, (Z.of_nat 0 <? M) eqn:E2; try reflexivity;
        [apply Z.ltb_lt in E1, E2 | apply Z.ltb_ge in E1, E2]; lia.
    + cbn in Hi. rewrite (Hv i v Hi).
      destruct (M <? 1 + Z.of_nat i + 1) eqn:E1, (Z.of_nat (S i) <? M) eqn:E2;
        try reflexivity; [apply Z.ltb_lt in E1, E2 | apply Z.ltb_ge in E1, E2]; lia.
  - exact He.
Qed.

Lemma rate_limit_first_window_witness :
  (forall i v,
     snd (RateLimit.serve 900000 2 ∅ "10.0.0.1" [1000; 1001; 1002]) !! i = Some v ->
     v = (Z.of_nat i <? 2)) /\
  fst (RateLimit.serve 900000 2 ∅ "10.0.0.1" [1000; 1001; 1002]) !! "10.0.0.1" =
    Some (RateLimit.mkEntry (1 + Z.of_nat (length [1001; 1002])) (1000 + 900000)).
Proof.
  apply (rate_limit_first_window 900000 2 ∅ "10.0.0.1" 1000 [1001; 1002]).
  - lia.
  - reflexivity.
  - repeat constructor; lia.
Defined.

(** X2: once the reset time of its entry has passed, an address is served
    again whatever its count was: the entry restarts at 1 with a new reset
    time one window ahead. *)
Theorem rate_limit_reopens (W M : Z) (rateMap : gmap string RateLimit.entry)
    (ip : string) (e : RateLimit.entry) (now : Z) :
  1 <= M ->
  rateMap !! ip = Some e ->
  RateLimit.reset e < now ->
  RateLimit.limit W M now rateMap ip =
  (<[ip := RateLimit.mkEntry 1 (now + W)]> rateMap, true).
Proof.
  intros HM He Hnow. unfold RateLimit.limit. rewrite He. simpl default.
  assert ((RateLimit.reset e <? now) = true) as Hlt by (apply Z.ltb_lt; lia).
  rewrite Hlt. cbn [RateLimit.count RateLimit.reset].
  assert ((M <? 0 + 1) = false) as Hm by (apply Z.ltb_ge; lia).
  rewrite Hm. reflexivity.
Qed.

Lemma rate_limit_reopens_witness :
  RateLimit.limit 900000 100 2000000 {[ "10.0.0.1" := RateLimit.mkEntry 250 901000 ]}
    "10.0.0.1" =
  (<["10.0.0.1" := RateLimit.mkEntry 1 (2000000 + 900000)]>
     {[ "10.0.0.1" := RateLimit.mkEntry 250 901000 ]}, true).
Proof.
  apply (rate_limit_reopens 900000 100 {[ "10.0.0.1" := RateLimit.mkEntry 250 901000 ]}
           "10.0.0.1" (RateLimit.mkEntry 250 901000) 2000000).
  - lia.
  - reflexivity.
  - reflexivity.
Defined.

(** ** More on the webhook handler *)

Section WebhookMore.
Import JS WebhookServer WebhookServerRoutes.
Context `{Engine}.

Lemma already_processed_without_id st id :
  non_empty id = None -> already_processed st id = false.
Proof.
  unfold non_empty, already_processed. destruct id as [i|]; [| reflexivity].
  destruct (String.eqb i ""); [reflexivity | discriminate].
Qed.

Lemma mark_processed_without_id st id :
  non_empty id = None -> mark_processed st id = st.
Proof.
  unfold non_empty, mark_processed. destruct id as [i|]; [| reflexivity].
  destruct (String.eqb i ""); [reflexivity | discriminate].
Qed.

Lemma grant_keeps_ids plans now st o :
  processedWebhookIds (grant plans now st o) = processedWebhookIds st.
Proof.
  unfold grant. destruct (subscriptionItems o); [reflexivity |].
  destruct (customer_email o) as [email|]; [| reflexivity].
  destruct (String.eqb email ""); reflexivity.
Qed.

Lemma mark_processed_grows st id :
  processedWebhookIds st ⊆ processedWebhookIds (mark_processed st id).
Proof.
  unfold mark_processed. destruct id as [i|]; [| set_solver].
  destruct (String.eqb i ""); cbn; set_solver.
Qed.

Lemma handle_grows cps plans st timed :
  processedWebhookIds st ⊆ processedWebhookIds (handle cps plans st timed).
Proof.
  destruct timed as [now [email field | d | email | email plan sku]]; cbn [handle].
  - unfold post_v1_jobs. destruct (lt _ _); cbn; set_solver.
  - unfold post_v1_webhooks_shopify.
    destruct (already_processed st (webhookId d)); [cbn; set_solver |].
    destruct (hmac d); cbn [fst]; try set_solver.
    etransitivity; [| apply mark_processed_grows].
    destruct (body d); [rewrite grant_keeps_ids |]; set_solver.
  - unfold post_v1_auth. destruct (String.eqb email ""); [cbn; set_solver |].
    destruct (usersByEmail st !! email); cbn; set_solver.
  - unfold post_v1_dev_mock_orders_paid.
    destruct (String.eqb email ""); [cbn; set_solver |].
    destruct (non_empty plan), (non_empty sku); cbn; set_solver.
Qed.

Lemma run_grows cps plans requests : forall st,
  processedWebhookIds st ⊆ processedWebhookIds (run cps plans st requests).
Proof.
  induction requests as [| r rest IH]; intros st; [set_solver |].
  cbn [run foldl]. etransitivity; [apply (handle_grows cps plans st r) | apply IH].
Qed.

End WebhookMore.

(** X3: a delivery turned away by the signature check (401 or 400) leaves
    the store as it was and does not put its id on record, so the same id
    delivered again with a good signature is accepted. *)
Theorem rejected_delivery_keeps_id_free `{JS.Engine}
    (plans : WebhookServer.selling_plans) (now1 now2 : Z)
    (st : WebhookServer.store) (d1 d2 : WebhookServer.delivery) :
  WebhookServer.hmac d1 <> WebhookServer.HmacPassed ->
  WebhookServer.already_processed st (WebhookServer.webhookId d1) = false ->
  WebhookServer.webhookId d2 = WebhookServer.webhookId d1 ->
  WebhookServer.hmac d2 = WebhookServer.HmacPassed ->
  fst (WebhookServer.post_v1_webhooks_shopify plans now1 st d1) = st /\
  snd (WebhookServer.post_v1_webhooks_shopify plans now1 st d1) <> WebhookServer.Received /\
  snd (WebhookServer.post_v1_webhooks_shopify plans now2
         (fst (WebhookServer.post_v1_webhooks_shopify plans now1 st d1)) d2) =
    WebhookServer.Received.
Proof.
  intros Hbad Hfresh Hid Hgood.
  assert (WebhookServer.post_v1_webhooks_shopify plans now1 st d1 =
            (st, WebhookServer.InvalidSignature) \/
          WebhookServer.post_v1_webhooks_shopify plans now1 st d1 =
            (st, WebhookServer.BadRequest)) as Hfirst.
  { unfold WebhookServer.post_v1_webhooks_shopify. rewrite Hfresh.
    destruct (WebhookServer.hmac d1); [congruence | now left | now right]. }
  destruct Hfirst as [-> | ->]; cbn [fst snd]; (split; [reflexivity |]);
    (split; [discriminate |]);
    rewrite accepted_delivery by (rewrite ?Hid; assumption); reflexivity.
Qed.

Lemma rejected_delivery_keeps_id_free_witness :
  let bad := WebhookServer.mkDelivery (Some "wh_5") WebhookServer.HmacMismatch (Some renewal_order) in
  let good := WebhookServer.mkDelivery (Some "wh_5") WebhookServer.HmacPassed (Some renewal_order) in
  fst (@WebhookServer.post_v1_webhooks_shopify sample_engine WebhookServer.default_plans
         1700000000000 (one_user 10) bad) = one_user 10 /\
  snd (@WebhookServer.post_v1_webhooks_shopify sample_engine WebhookServer.default_plans
         1700000000000 (one_user 10) bad) <> WebhookServer.Received /\
  snd (@WebhookServer.post_v1_webhooks_shopify sample_engine WebhookServer.default_plans
         1700000600000
         (fst (@WebhookServer.post_v1_webhooks_shopify sample_engine
                 WebhookServer.default_plans 1700000000000 (one_user 10) bad)) good) =
    WebhookServer.Received.
Proof.
  intros bad good.
  apply (@rejected_delivery_keeps_id_free sample_engine WebhookServer.default_plans
           1700000000000 1700000600000 (one_user 10) bad good).
  - discriminate.
  - vm_compute. reflexivity.
  - reflexivity.
  - reflexivity.
Defined.

(** X4: a delivery that carries no webhook id (or an empty one) is never
    recognised as a duplicate: delivered twice, a renewal whose plan id
    names no inherited property credits the plan's credits twice (a
    whole-number balance, amounts within 2^53). *)
Theorem delivery_without_id_credits_again `{JS.Engine}
    (plans : WebhookServer.selling_plans) (now1 now2 : Z)
    (st : WebhookServer.store) (d : WebhookServer.delivery)
    (o : WebhookServer.order) (email : string) (b : Z) :
  WebhookServerRoutes.non_empty (WebhookServer.webhookId d) = None ->
  WebhookServer.hmac d = WebhookServer.HmacPassed ->
  WebhookServer.body d = Some o ->
  WebhookServer.subscriptionItems o <> [] ->
  WebhookServer.customer_email o = Some email ->
  email <> "" ->
  JS.Object_prototype (WebhookServer.first_plan_id (WebhookServer.subscriptionItems o)) =
    None ->
  WebhookServer.balance (WebhookServer.user_or_empty st email) = JS.VNumber (JS.of_Z b) ->
  let credits :=
    Policy.plan_credits (WebhookServer.SELLING_PLAN_TIER1 plans)
      (WebhookServer.SELLING_PLAN_TIER2 plans) (WebhookServer.SELLING_PLAN_TIER3 plans)
      (WebhookServer.first_plan_id (WebhookServer.subscriptionItems o)) in
  JS.safe b -> JS.safe (b + credits + credits) ->
  let st1 := fst (WebhookServer.post_v1_webhooks_shopify plans now1 st d) in
  let st2 := fst (WebhookServer.post_v1_webhooks_shopify plans now2 st1 d) in
  WebhookServer.balance <$> WebhookServer.usersByEmail st1 !! email =
    Some (JS.VNumber (JS.of_Z (b + credits))) /\
  WebhookServer.balance <$> WebhookServer.usersByEmail st2 !! email =
    Some (JS.VNumber (JS.of_Z (b + credits + credits))).
Proof.
  intros Hid Hmac Hbody Hs He Hne Hplain Hb credits _ _ st1 st2.
  assert (forall now st', WebhookServer.post_v1_webhooks_shopify plans now st' d =
                          (WebhookServer.grant plans now st' o, WebhookServer.Received)) as Hrun.
  { intros now st'. rewrite accepted_delivery;
      [| now apply already_processed_without_id | assumption].
    now rewrite Hbody, mark_processed_without_id. }
  assert (WebhookServer.balance <$> WebhookServer.usersByEmail st1 !! email =
          Some (JS.VNumber (JS.of_Z (b + credits)))) as H1.
  { subst st1. rewrite Hrun. cbn [fst]. now apply grant_whole_balance. }
  split; [exact H1 |].
  subst st2. rewrite Hrun. cbn [fst].
  apply grant_whole_balance; try assumption.
  now apply user_or_empty_balance.
Qed.

Lemma delivery_without_id_credits_again_witness :
  let d := WebhookServer.mkDelivery None WebhookServer.HmacPassed (Some renewal_order) in
  let st1 := fst (@WebhookServer.post_v1_webhooks_shopify sample_engine
                    WebhookServer.default_plans 1700000000000 (one_user 10) d) in
  let st2 := fst (@WebhookServer.post_v1_webhooks_shopify sample_engine
                    WebhookServer.default_plans 1700000600000 st1 d) in
  WebhookServer.balance <$> WebhookServer.usersByEmail st1 !! "ada@example.com" =
    Some (JS.VNumber (JS.of_Z (10 + 7500))) /\
  WebhookServer.balance <$> WebhookServer.usersByEmail st2 !! "ada@example.com" =
    Some (JS.VNumber (JS.of_Z (10 + 7500 + 7500))).
Proof.
  intros d.
  apply (@delivery_without_id_credits_again sample_engine WebhookServer.default_plans
           1700000000000 1700000600000 (one_user 10) d renewal_order "ada@example.com" 10);
    try reflexivity; try discriminate;
    unfold JS.safe; vm_compute; split; discriminate.
Defined.

(** X5: an id once on record stays on record through every later request
    of any kind, so a delivery that carries it is answered as a duplicate
    and changes nothing, however much has happened in between. *)
Theorem recorded_id_stays_recorded `{JS.Engine}
    (cps : JS.number) (plans : WebhookServer.selling_plans)
    (st : WebhookServer.store) (id : string)
    (requests : list (Z * WebhookServerRoutes.request))
    (now : Z) (d : WebhookServer.delivery) :
  WebhookServer.already_processed st (Some id) = true ->
  WebhookServer.webhookId d = Some id ->
  WebhookServer.post_v1_webhooks_shopify plans now
    (WebhookServerRoutes.run cps plans st requests) d =
  (WebhookServerRoutes.run cps plans st requests, WebhookServer.Duplicate).
Proof.
  intros Hrec Hid. apply duplicate_delivery. rewrite Hid.
  unfold WebhookServer.already_processed in *.
  destruct (String.eqb id ""); [discriminate |]. cbn [negb andb] in *.
  apply bool_decide_eq_true. apply bool_decide_eq_true in Hrec.
  now apply (run_grows cps plans requests st).
Qed.

Lemma recorded_id_stays_recorded_witness :
  let st := fst (@WebhookServer.post_v1_webhooks_shopify sample_engine
                   WebhookServer.default_plans 1700000000000 (one_user 10)
                   (WebhookServer.mkDelivery (Some "wh_6") WebhookServer.HmacPassed None)) in
  let requests :=
    [ (1700000000100, WebhookServerRoutes.Jobs "ada@example.com" (JS.VNumber (JS.of_Z 5)));
      (1700000000200, WebhookServerRoutes.Auth "bob@example.com") ] in
  let d := WebhookServer.mkDelivery (Some "wh_6") WebhookServer.HmacPassed (Some renewal_order) in
  @WebhookServer.post_v1_webhooks_shopify sample_engine WebhookServer.default_plans 1700000000300
    (@WebhookServerRoutes.run sample_engine (JS.of_Z 15) WebhookServer.default_plans st requests) d =
  (@WebhookServerRoutes.run sample_engine (JS.of_Z 15) WebhookServer.default_plans st requests,
   WebhookServer.Duplicate).
Proof.
  intros st requests d.
  apply (@recorded_id_stays_recorded sample_engine (JS.of_Z 15) WebhookServer.default_plans
           st "wh_6" requests 1700000000300 d).
  - vm_compute. reflexivity.
  - reflexivity.
Defined.

(** X6: a renewal overwrites a balance that is [NaN].  After the reserve
    request of C10 has turned the balance into [NaN], the next renewal
    (its plan id naming no inherited property) leaves exactly the plan's
    credits: what the user held before is gone. *)
Theorem renewal_after_not_a_number `{JS.Engine}
    (cps : JS.number) (plans : WebhookServer.selling_plans) (now1 now2 : Z)
    (st : WebhookServer.store) (s : string) (d : WebhookServer.delivery)
    (o : WebhookServer.order) (email : string) :
  s <> "" ->
  JS.StringToNumber s = JS.NaN ->
  WebhookServer.already_processed st (WebhookServer.webhookId d) = false ->
  WebhookServer.hmac d = WebhookServer.HmacPassed ->
  WebhookServer.body d = Some o ->
  WebhookServer.subscriptionItems o <> [] ->
  WebhookServer.customer_email o = Some email ->
  email <> "" ->
  JS.Object_prototype (WebhookServer.first_plan_id (WebhookServer.subscriptionItems o)) =
    None ->
  let st1 := fst (WebhookServer.post_v1_jobs cps now1 st email (JS.VString s)) in
  let st2 := fst (WebhookServer.post_v1_webhooks_shopify plans now2 st1 d) in
  WebhookServer.balance <$> WebhookServer.usersByEmail st1 !! email =
    Some (JS.VNumber JS.NaN) /\
  WebhookServer.balance <$> WebhookServer.usersByEmail st2 !! email =
    Some (JS.VNumber
            (JS.of_Z (Policy.plan_credits (WebhookServer.SELLING_PLAN_TIER1 plans)
                        (WebhookServer.SELLING_PLAN_TIER2 plans)
                        (WebhookServer.SELLING_PLAN_TIER3 plans)
                        (WebhookServer.first_plan_id (WebhookServer.subscriptionItems o))))).
Proof.
  intros Hs Hn Hfresh Hmac Hbody Hsub He Hne Hplain st1 st2.
  assert (WebhookServer.balance <$> WebhookServer.usersByEmail st1 !! email =
          Some (JS.VNumber JS.NaN)) as H1.
  { subst st1. rewrite post_v1_jobs_reserved.
    - cbn [fst]. rewrite set_user_balance, (needed_not_a_number cps s Hs Hn).
      now rewrite sub_NaN.
    - rewrite (needed_not_a_number cps s Hs Hn). apply lt_NaN_r. }
  split; [exact H1 |].
  assert (WebhookServer.processedWebhookIds st1 = WebhookServer.processedWebhookIds st) as Hids.
  { subst st1. unfold WebhookServer.post_v1_jobs. destruct (JS.lt _ _); reflexivity. }
  subst st2. rewrite accepted_delivery; [| | assumption].
  - rewrite Hbody. cbn [fst]. rewrite mark_processed_users.
    rewrite (grant_subscription plans now2 st1 o email Hsub He Hne).
    rewrite (user_or_empty_balance st1 email (JS.VNumber JS.NaN) H1).
    rewrite (credits_for_plan_plain _ _ Hplain).
    change (WebhookServer.balance_or_zero (JS.VNumber JS.NaN)) with (JS.VNumber (JS.of_Z 0)).
    now rewrite plus_of_Z.
  - unfold WebhookServer.already_processed in *. now rewrite Hids.
Qed.

Lemma renewal_after_not_a_number_witness :
  let d := WebhookServer.mkDelivery (Some "wh_7") WebhookServer.HmacPassed (Some renewal_order) in
  let st1 := fst (@WebhookServer.post_v1_jobs sample_engine (JS.of_Z 15) 1700000000000
                    (one_user 200) "ada@example.com" (JS.VString "ten")) in
  let st2 := fst (@WebhookServer.post_v1_webhooks_shopify sample_engine
                    WebhookServer.default_plans 1700000600000 st1 d) in
  WebhookServer.balance <$> WebhookServer.usersByEmail st1 !! "ada@example.com" =
    Some (JS.VNumber JS.NaN) /\
  WebhookServer.balance <$> WebhookServer.usersByEmail st2 !! "ada@example.com" =
    Some (JS.VNumber (JS.of_Z 7500)).
Proof.
  intros d.
  apply (@renewal_after_not_a_number sample_engine (JS.of_Z 15) WebhookServer.default_plans
           1700000000000 1700000600000 (one_user 200) "ten" d renewal_order "ada@example.com");
    try reflexivity; try discriminate.
Defined.

(** ** The account routes of [webhook-server.js] *)

Section Accounts.
Import JS WebhookServer WebhookServerRoutes.
Context `{Engine}.

Lemma whole_balances_set st email u :
  whole_balances st ->
  (exists b : Z, 0 <= b /\ balance u = VNumber (of_Z b)) ->
  whole_balances (set_user st email u).
Proof.
  intros Hst Hu e user. unfold set_user. cbn [usersByEmail].
  destruct (decide (email = e)) as [-> | Hne].
  - rewrite lookup_insert_eq. intros [= <-]. exact Hu.
  - rewrite lookup_insert_ne by exact Hne. apply Hst.
Qed.

Lemma whole_balances_users st st' :
  usersByEmail st' = usersByEmail st -> whole_balances st -> whole_balances st'.
Proof. intros Heq Hst e user. rewrite Heq. apply Hst. Qed.

Lemma whole_balances_lookup st email :
  whole_balances st ->
  exists b : Z, 0 <= b /\ balance (user_or_empty st email) = VNumber (of_Z b).
Proof.
  intros Hst. unfold user_or_empty.
  destruct (usersByEmail st !! email) as [u|] eqn:E; cbn.
  - exact (Hst email u E).
  - exists 0. split; [lia | reflexivity].
Qed.

Lemma whole_balances_default st email (fallback : user) :
  whole_balances st ->
  (exists b : Z, 0 <= b /\ balance fallback = VNumber (of_Z b)) ->
  exists b : Z, 0 <= b /\
    balance (default fallback (usersByEmail st !! email)) = VNumber (of_Z b).
Proof.
  intros Hst Hf. destruct (usersByEmail st !! email) as [u|] eqn:E; cbn.
  - exact (Hst email u E).
  - exact Hf.
Qed.

Lemma grant_keeps_whole plans now st o :
  Object_prototype (first_plan_id (subscriptionItems o)) = None ->
  whole_balances st -> whole_balances (grant plans now st o).
Proof.
  intros Hplain Hst. unfold grant.
  destruct (subscriptionItems o) as [| item items]; [exact Hst |].
  destruct (customer_email o) as [email|]; [| exact Hst].
  destruct (String.eqb email ""); [exact Hst |].
  apply whole_balances_set; [exact Hst |].
  destruct (whole_balances_default st email
              (mkUser (VNumber (of_Z 0)) (Some (first_plan_id (item :: items)))
                 (Some (first_plan_id (item :: items))) (Some (now + 30 * day_ms))
                 (Some (customer_id o))) Hst) as (b & Hb & Heq).
  { exists 0. split; [lia | reflexivity]. }
  eexists. split; [| cbn [balance];
    rewrite Heq, balance_or_zero_of_Z, (credits_for_plan_plain _ _ Hplain), plus_of_Z;
    reflexivity].
  pose proof (plan_credits_min (SELLING_PLAN_TIER1 plans) (SELLING_PLAN_TIER2 plans)
                (SELLING_PLAN_TIER3 plans) (first_plan_id (item :: items))). lia.
Qed.

(** The credits of a SKU that names no inherited property. *)
Lemma getCreditsForSku_plain sku :
  Object_prototype sku = None ->
  exists k : Z, 1000 <= k /\ getCreditsForSku sku = VNumber (of_Z k).
Proof.
  intros Hplain. unfold getCreditsForSku. rewrite (get_plain _ _ Hplain). unfold skuCredits.
  destruct (decide (sku = "AUTOVFX-PRO")) as [-> | H3].
  { exists 8000. split; [lia | reflexivity]. }
  rewrite lookup_insert_ne by congruence.
  destruct (decide (sku = "AUTOVFX-STUDIO")) as [-> | H2].
  { exists 2500. split; [lia | reflexivity]. }
  rewrite lookup_insert_ne by congruence.
  destruct (decide (sku = "AUTOVFX-CREATOR")) as [-> | H1].
  { exists 1000. split; [lia | reflexivity]. }
  rewrite lookup_insert_ne by congruence.
  rewrite lookup_empty. exists 1000. split; [lia | reflexivity].
Qed.

Lemma non_empty_plain (field : option string) (s : string) :
  non_empty field = Some s -> plain_key field -> Object_prototype s = None.
Proof.
  unfold non_empty, plain_key. destruct field as [t|]; [| discriminate].
  destruct (String.eqb t ""); [discriminate |]. now intros [= <-].
Qed.

Lemma handle_keeps_whole (c : Z) plans st timed :
  0 <= c -> plain_request timed -> whole_balances st ->
  whole_balances (handle (of_Z c) plans st timed).
Proof.
  intros Hc Hplain Hst.
  destruct timed as [now [email field | d | email | email plan sku]]; cbn [handle].
  - destruct field as [| | | [| | | q] | |]; try contradiction.
    destruct (whole_balances_lookup st email Hst) as (b & Hb & Heq).
    unfold post_v1_jobs. rewrite Heq. cbn [Number]. rewrite needed_number, lt_of_Z.
    destruct (b <? _) eqn:E; cbn [fst]; [exact Hst |].
    apply Z.ltb_ge in E. apply whole_balances_set; [exact Hst |].
    eexists. split; [| cbn [with_balance balance]; rewrite sub_of_Z; reflexivity]. lia.
  - unfold post_v1_webhooks_shopify.
    destruct (already_processed st (webhookId d)); [exact Hst |].
    destruct (hmac d); cbn [fst]; try exact Hst.
    eapply whole_balances_users; [apply mark_processed_users |].
    unfold plain_request in Hplain. cbn [snd] in Hplain.
    destruct (body d); [now apply grant_keeps_whole | exact Hst].
  - unfold post_v1_auth. destruct (String.eqb email ""); [exact Hst |].
    destruct (usersByEmail st !! email); cbn [fst]; [exact Hst |].
    apply whole_balances_set; [exact Hst |]. exists 0. split; [lia | reflexivity].
  - unfold post_v1_dev_mock_orders_paid.
    destruct (String.eqb email ""); [exact Hst |].
    set (fallback := mkUser (VNumber (of_Z 0)) (Some "none") (Some "none") None None).
    destruct (whole_balances_default st email fallback Hst) as (b & Hb & Heq).
    { exists 0. split; [lia | reflexivity]. }
    destruct Hplain as [Hplan Hsku]. cbn [snd] in *.
    destruct (non_empty plan) as [p|] eqn:Ep; [| destruct (non_empty sku) as [k|] eqn:Ek];
      cbn [fst]; try exact Hst;
      (apply whole_balances_set; [exact Hst |]); cbn [balance];
      rewrite Heq, balance_or_zero_of_Z.
    + rewrite (credits_for_plan_plain plans p (non_empty_plain plan p Ep Hplan)), plus_of_Z.
      eexists. split; [| reflexivity].
      pose proof (plan_credits_min (SELLING_PLAN_TIER1 plans) (SELLING_PLAN_TIER2 plans)
                    (SELLING_PLAN_TIER3 plans) p). lia.
    + destruct (getCreditsForSku_plain k (non_empty_plain sku k Ek Hsku)) as (g & Hg & ->).
      rewrite plus_of_Z. eexists. split; [| reflexivity]. lia.
Qed.

Lemma auth_known st email u :
  email <> "" -> usersByEmail st !! email = Some u ->
  post_v1_auth st email =
  (st, Authenticated
         (mkAuthAnswer (if is_none_plan (planId u) then "none" else "active")
            (planId u) (balance u) (cycleEnd u) (is_none_plan (planId u)))).
Proof.
  intros Hne Hu. unfold post_v1_auth. rewrite (not_empty_eqb email Hne), Hu. reflexivity.
Qed.

Lemma auth_unknown st email :
  email <> "" -> usersByEmail st !! email = None ->
  post_v1_auth st email =
  (set_user st email (mkUser (VNumber (of_Z 0)) (Some "none") (Some "none") None None),
   Authenticated (mkAuthAnswer "none" (Some "none") (VNumber (of_Z 0)) None true)).
Proof.
  intros Hne Hu. unfold post_v1_auth. rewrite (not_empty_eqb email Hne), Hu. reflexivity.
Qed.

End Accounts.

(** X7: with a whole, non-negative price per second, every run of reserve
    requests with finite seconds, webhook deliveries, sign-ins and mock
    orders, none of which names an inherited property as its plan id or
    SKU, keeps every stored balance a whole number that is not negative:
    none of these routes overdraws a balance. *)
Theorem run_keeps_whole_balances `{JS.Engine} (c : Z)
    (plans : WebhookServer.selling_plans) (st : WebhookServer.store)
    (requests : list (Z * WebhookServerRoutes.request)) :
  0 <= c ->
  WebhookServerRoutes.whole_balances st ->
  Forall WebhookServerRoutes.plain_request requests ->
  WebhookServerRoutes.whole_balances
    (WebhookServerRoutes.run (JS.of_Z c) plans st requests).
Proof.
  intros Hc Hst Hall. revert st Hst.
  induction Hall as [| r rest Hr Hrest IH]; intros st Hst; [exact Hst |].
  cbn [WebhookServerRoutes.run foldl]. apply IH.
  now apply handle_keeps_whole.
Qed.

Lemma run_keeps_whole_balances_witness :
  WebhookServerRoutes.whole_balances
    (@WebhookServerRoutes.run sample_engine (JS.of_Z 15) WebhookServer.default_plans
       (WebhookServer.mkStore ∅ ∅)
       [ (1700000000000, WebhookServerRoutes.Auth "ada@example.com");
         (1700000000100,
          WebhookServerRoutes.Webhook
            (WebhookServer.mkDelivery (Some "wh_8") WebhookServer.HmacPassed
               (Some renewal_order)));
         (1700000000200,
          WebhookServerRoutes.Jobs "ada@example.com" (JS.VNumber (JS.Fin (31 # 10))));
         (1700000000300,
          WebhookServerRoutes.MockOrder "ada@example.com" None (Some "AUTOVFX-PRO")) ]).
Proof.
  apply (@run_keeps_whole_balances sample_engine 15).
  - lia.
  - intros email user Hlookup. cbn [WebhookServer.usersByEmail] in Hlookup.
    rewrite lookup_empty in Hlookup. discriminate.
  - repeat constructor.
Defined.

(** X8: signing in creates the user at most once.  A known user's record is
    left as it is; an unknown email gets a record with balance 0 and plan
    ['none'], is told it needs a subscription, and no other record moves;
    signing in again changes nothing and gives the same answer. *)
Theorem sign_in_creates_once (st : WebhookServer.store) (email : string) :
  email <> "" ->
  let first := WebhookServerRoutes.post_v1_auth st email in
  WebhookServerRoutes.post_v1_auth (fst first) email = first /\
  (forall u, WebhookServer.usersByEmail st !! email = Some u -> fst first = st) /\
  (WebhookServer.usersByEmail st !! email = None ->
     snd first =
       WebhookServerRoutes.Authenticated
         (WebhookServerRoutes.mkAuthAnswer "none" (Some "none") (JS.VNumber (JS.of_Z 0))
            None true) /\
     WebhookServer.balance <$> WebhookServer.usersByEmail (fst first) !! email =
       Some (JS.VNumber (JS.of_Z 0)) /\
     forall other, other <> email ->
       WebhookServer.usersByEmail (fst first) !! other =
       WebhookServer.usersByEmail st !! other).
Proof.
  intros Hne first. subst first.
  destruct (WebhookServer.usersByEmail st !! email) as [u|] eqn:E.
  - rewrite (auth_known st email u Hne E). cbn [fst snd].
    split; [now apply auth_known | split; [reflexivity | discriminate]].
  - pose proof (auth_unknown st email Hne E) as Hfirst.
    rewrite Hfirst. cbn [fst snd]. split; [| split; [discriminate |]].
    + rewrite (auth_known _ email
                 (WebhookServer.mkUser (JS.VNumber (JS.of_Z 0)) (Some "none") (Some "none")
                    None None) Hne).
      * reflexivity.
      * unfold WebhookServer.set_user. cbn. apply lookup_insert_eq.
    + intros _. split; [reflexivity | split].
      * unfold WebhookServer.set_user. cbn [WebhookServer.usersByEmail].
        now rewrite lookup_insert_eq.
      * intros other Hother. unfold WebhookServer.set_user.
        cbn [WebhookServer.usersByEmail]. now rewrite lookup_insert_ne.
Qed.

Lemma sign_in_creates_once_witness :
  let first := WebhookServerRoutes.post_v1_auth (one_user 10) "bob@example.com" in
  WebhookServerRoutes.post_v1_auth (fst first) "bob@example.com" = first /\
  WebhookServer.balance <$> WebhookServer.usersByEmail (fst first) !! "bob@example.com" =
    Some (JS.VNumber (JS.of_Z 0)).
Proof.
  intros first.
  destruct (sign_in_creates_once (one_user 10) "bob@example.com" ltac:(discriminate))
    as (Hagain & _ & Hnew).
  split; [exact Hagain |]. apply Hnew. reflexivity.
Defined.

(** X9: a user who has only signed in cannot reserve.  With a positive
    whole price per second, the first reserve request after the sign-in of
    an unknown email is refused for any finite seconds: it needs at least
    one second's price and the balance is 0. *)
Theorem new_user_cannot_reserve `{JS.Engine} (c : Z) (now : Z)
    (st : WebhookServer.store) (email : string) (q : Q) :
  email <> "" ->
  WebhookServer.usersByEmail st !! email = None ->
  0 < c ->
  let st1 := fst (WebhookServerRoutes.post_v1_auth st email) in
  exists n : Z,
    c <= n /\
    WebhookServer.post_v1_jobs (JS.of_Z c) now st1 email (JS.VNumber (JS.Fin q)) =
      (st1, WebhookServer.InsufficientCredits (JS.of_Z n) (JS.VNumber (JS.of_Z 0))).
Proof.
  intros Hne Hnone Hc st1.
  assert (WebhookServer.balance (WebhookServer.user_or_empty st1 email) =
          JS.VNumber (JS.of_Z 0)) as Hbal.
  { subst st1. rewrite (auth_unknown st email Hne Hnone). cbn [fst].
    now rewrite user_or_empty_set. }
  exists (Z.max 1 (Qfloor (Policy.clamp q + (1 # 2))) * c). split; [nia |].
  unfold WebhookServer.post_v1_jobs. rewrite Hbal. cbn [JS.Number].
  rewrite needed_number, lt_of_Z.
  assert ((0 <? Z.max 1 (Qfloor (Policy.clamp q + (1 # 2))) * c) = true) as Hlt
    by (apply Z.ltb_lt; nia).
  now rewrite Hlt.
Qed.

Lemma new_user_cannot_reserve_witness :
  let st1 := fst (WebhookServerRoutes.post_v1_auth (one_user 10) "bob@example.com") in
  exists n : Z,
    15 <= n /\
    @WebhookServer.post_v1_jobs sample_engine (JS.of_Z 15) 1700000000000 st1
      "bob@example.com" (JS.VNumber (JS.Fin (1 # 10))) =
      (st1, WebhookServer.InsufficientCredits (JS.of_Z n) (JS.VNumber (JS.of_Z 0))).
Proof.
  apply (@new_user_cannot_reserve sample_engine 15 1700000000000 (one_user 10)
           "bob@example.com" (1 # 10)).
  - discriminate.
  - reflexivity.
  - lia.
Defined.

(** X10: the mock-order route is not deduplicated and prefers the selling
    plan to the SKU: sent twice with a selling plan whose id names no
    inherited property, it credits that plan's credits twice, whatever SKU
    comes with it (a whole-number balance, amounts within 2^53). *)
Theorem mock_order_credits_every_time `{JS.Engine}
    (plans : WebhookServer.selling_plans) (now1 now2 : Z)
    (st : WebhookServer.store) (email plan : string) (sku : option string) (b : Z) :
  email <> "" ->
  plan <> "" ->
  JS.Object_prototype plan = None ->
  WebhookServer.balance (WebhookServer.user_or_empty st email) = JS.VNumber (JS.of_Z b) ->
  let credits :=
    Policy.plan_credits (WebhookServer.SELLING_PLAN_TIER1 plans)
      (WebhookServer.SELLING_PLAN_TIER2 plans) (WebhookServer.SELLING_PLAN_TIER3 plans)
      plan in
  JS.safe b -> JS.safe (b + credits + credits) ->
  let first := WebhookServerRoutes.post_v1_dev_mock_orders_paid plans now1 st email
                 (Some plan) sku in
  let second := WebhookServerRoutes.post_v1_dev_mock_orders_paid plans now2 (fst first) email
                  (Some plan) sku in
  snd first =
    WebhookServerRoutes.MockGranted (JS.VNumber (JS.of_Z credits))
      (JS.VNumber (JS.of_Z (b + credits))) (now1 + 30 * WebhookServer.day_ms) /\
  snd second =
    WebhookServerRoutes.MockGranted (JS.VNumber (JS.of_Z credits))
      (JS.VNumber (JS.of_Z (b + credits + credits))) (now2 + 30 * WebhookServer.day_ms) /\
  WebhookServer.balance <$> WebhookServer.usersByEmail (fst second) !! email =
    Some (JS.VNumber (JS.of_Z (b + credits + credits))).
Proof.
  intros Hne Hplan Hplain Hb credits _ _ first second.
  assert (forall now st' b',
            WebhookServer.balance (WebhookServer.user_or_empty st' email) =
              JS.VNumber (JS.of_Z b') ->
            exists u,
              WebhookServerRoutes.post_v1_dev_mock_orders_paid plans now st' email
                (Some plan) sku =
              (WebhookServer.set_user st' email u,
               WebhookServerRoutes.MockGranted (JS.VNumber (JS.of_Z credits))
                 (JS.VNumber (JS.of_Z (b' + credits)))
                 (now + 30 * WebhookServer.day_ms)) /\
              WebhookServer.balance u = JS.VNumber (JS.of_Z (b' + credits))) as Hstep.
  { intros now st' b' Hb'. unfold WebhookServerRoutes.post_v1_dev_mock_orders_paid.
    rewrite (not_empty_eqb email Hne). cbn [WebhookServerRoutes.non_empty].
    rewrite (not_empty_eqb plan Hplan).
    assert (WebhookServer.balance
              (default (WebhookServer.mkUser (JS.VNumber (JS.of_Z 0)) (Some "none")
                          (Some "none") None None)
                       (WebhookServer.usersByEmail st' !! email)) =
            JS.VNumber (JS.of_Z b')) as Hprev.
    { unfold WebhookServer.user_or_empty in Hb'.
      destruct (WebhookServer.usersByEmail st' !! email); exact Hb'. }
    rewrite Hprev, balance_or_zero_of_Z, (credits_for_plan_plain _ _ Hplain), plus_of_Z.
    eexists. split; reflexivity. }
  destruct (Hstep now1 st b Hb) as (u1 & H1 & Hu1).
  subst first second. rewrite H1. cbn [fst snd].
  destruct (Hstep now2 (WebhookServer.set_user st email u1) (b + credits)) as (u2 & H2 & Hu2).
  { now rewrite user_or_empty_set. }
  rewrite H2. cbn [fst snd]. split; [reflexivity | split; [reflexivity |]].
  unfold WebhookServer.set_user. cbn [WebhookServer.usersByEmail].
  rewrite lookup_insert_eq. cbn. now rewrite Hu2.
Qed.

Lemma mock_order_credits_every_time_witness :
  let first := @WebhookServerRoutes.post_v1_dev_mock_orders_paid sample_engine
                 WebhookServer.default_plans 1700000000000 (one_user 10) "ada@example.com"
                 (Some "690385551702") (Some "AUTOVFX-CREATOR") in
  let second := @WebhookServerRoutes.post_v1_dev_mock_orders_paid sample_engine
                  WebhookServer.default_plans 1700000600000 (fst first) "ada@example.com"
                  (Some "690385551702") (Some "AUTOVFX-CREATOR") in
  snd first =
    WebhookServerRoutes.MockGranted (JS.VNumber (JS.of_Z 24000))
      (JS.VNumber (JS.of_Z (10 + 24000))) (1700000000000 + 30 * WebhookServer.day_ms) /\
  snd second =
    WebhookServerRoutes.MockGranted (JS.VNumber (JS.of_Z 24000))
      (JS.VNumber (JS.of_Z (10 + 24000 + 24000))) (1700000600000 + 30 * WebhookServer.day_ms) /\
  WebhookServer.balance <$> WebhookServer.usersByEmail (fst second) !! "ada@example.com" =
    Some (JS.VNumber (JS.of_Z (10 + 24000 + 24000))).
Proof.
  apply (@mock_order_credits_every_time sample_engine WebhookServer.default_plans
           1700000000000 1700000600000 (one_user 10) "ada@example.com" "690385551702"
           (Some "AUTOVFX-CREATOR") 10);
    try reflexivity; try discriminate;
    unfold JS.safe; vm_compute; split; discriminate.
Defined.



(** ** The other routes and helpers of [api/v2] *)

Section ApiV2More.
Import JS JSMore ApiV2 ApiV2Routes PgPool.
Context `{Engine}.

Lemma Qceiling_positive (q : Q) : (0 < q)%Q -> 1 <= Qceiling q.
Proof.
  intros Hq. pose proof (Qle_ceiling q) as Hc.
  assert (0 < Qceiling q) as Hpos; [| lia].
  rewrite Zlt_Qlt. change (inject_Z 0) with 0%Q. lra.
Qed.

Lemma round_le_ceiling (q : Q) : Qfloor (q + (1 # 2)) <= Qceiling q.
Proof.
  pose proof (Qfloor_le (q + (1 # 2))) as Hf. pose proof (Qle_ceiling q) as Hc.
  assert (Qfloor (q + (1 # 2)) < Qceiling q + 1) as Hlt; [| lia].
  rewrite Zlt_Qlt, inject_Z_plus. change (inject_Z 1) with 1%Q. lra.
Qed.

Lemma ceiling_le_round_succ (q : Q) : Qceiling q <= Qfloor (q + (1 # 2)) + 1.
Proof.
  pose proof (Qlt_floor (q + (1 # 2))) as Hf. pose proof (Qceiling_lt q) as Hc.
  rewrite inject_Z_plus in Hf. change (inject_Z 1) with 1%Q in Hf.
  unfold Z.sub in Hc. rewrite inject_Z_plus, inject_Z_opp in Hc.
  change (inject_Z 1) with 1%Q in Hc.
  assert (Qceiling q < Qfloor (q + (1 # 2)) + 2) as Hlt; [| lia].
  rewrite Zlt_Qlt, inject_Z_plus. change (inject_Z 2) with 2%Q. lra.
Qed.

Lemma clamp_of_nonneg (q : Q) : (0 <= q)%Q -> Policy.clamp q = q.
Proof.
  intros Hq. unfold Policy.clamp.
  assert (Qle_bool 0 q = true) as Hb by now apply Qle_bool_iff.
  now rewrite Hb.
Qed.

(** What a started job tells about the request and the pool: the seconds
    are not zero, the balance covers them, and [getUser] has kept one
    client. *)
Lemma started_generate max (k : Z) db db1 email uri prompt (q : Q) started (b : Z) :
  users db !! email = Some b ->
  ApiV2Process.post_generate max (of_Z k) db email uri prompt (VNumber (Fin q)) started =
    (db1, ApiV2Process.Started) ->
  Qeq_bool q 0 = false /\ 0 <= b - Qceiling q * k /\
  db1 = mkDatabase (users db) (S (checked_out db)).
Proof.
  intros Hrow. unfold ApiV2Process.post_generate.
  destruct (truthy uri); cbn [negb orb]; [| discriminate].
  destruct (truthy prompt); cbn [negb orb]; [| discriminate].
  cbn [truthy]. destruct (Qeq_bool q 0); cbn [negb]; [discriminate |].
  rewrite calculateCredits_number. unfold ApiV2Process.getUser, connect.
  destruct (checked_out db <? max)%nat; [| discriminate].
  cbn [users]. rewrite Hrow, sub_of_Z, lt_of_Z.
  destruct (b - Qceiling q * k <? 0) eqn:E; [discriminate |].
  destruct started; [| discriminate].
  intros [= <-]. apply Z.ltb_ge in E. repeat split. exact E.
Qed.

Lemma tier_credits_positive tier c : tier_credits tier = Some c -> 0 < c.
Proof.
  unfold tier_credits. destruct tier as [name|]; [| discriminate].
  repeat case_decide; intros [= <-]; lia.
Qed.

End ApiV2More.

(** X12: [calculateCredits] is monotone: with a whole, non-negative price
    per second, more seconds never cost fewer credits. *)
Theorem calculateCredits_monotone `{JS.Engine} (c : Z) (q1 q2 : Q) :
  0 <= c ->
  (q1 <= q2)%Q ->
  exists m1 m2 : Z,
    ApiV2.calculateCredits (JS.of_Z c) (JS.VNumber (JS.Fin q1)) = Some (JS.of_Z m1) /\
    ApiV2.calculateCredits (JS.of_Z c) (JS.VNumber (JS.Fin q2)) = Some (JS.of_Z m2) /\
    m1 <= m2.
Proof.
  intros Hc Hq. exists (Qceiling q1 * c), (Qceiling q2 * c).
  split; [reflexivity | split; [reflexivity |]].
  apply Z.mul_le_mono_nonneg_r; [exact Hc | now apply Qceiling_resp_le].
Qed.

Lemma calculateCredits_monotone_witness :
  exists m1 m2 : Z,
    @ApiV2.calculateCredits sample_engine (JS.of_Z 15) (JS.VNumber (JS.Fin (31 # 10))) =
      Some (JS.of_Z m1) /\
    @ApiV2.calculateCredits sample_engine (JS.of_Z 15) (JS.VNumber (JS.Fin (4 # 1))) =
      Some (JS.of_Z m2) /\
    m1 <= m2.
Proof.
  apply (@calculateCredits_monotone sample_engine 15 (31 # 10) (4 # 1)).
  - lia.
  - unfold Qle. cbn. lia.
Defined.

(** X13: for positive seconds the two conversions differ by at most one
    second's price: what [calculateCredits] charges at completion is never
    less than what the reserve path holds for the same seconds, and exceeds
    it by at most [creditsPerSecond] (amounts within 2^53, where both
    double products are exact). *)
Theorem settlement_charge_vs_reservation `{JS.Engine} (c : Z) (q : Q) :
  0 <= c ->
  (0 < q)%Q ->
  JS.safe (Qceiling q * c) ->
  exists n m : Z,
    WebhookServer.needed (JS.of_Z c) (JS.VNumber (JS.Fin q)) = JS.of_Z n /\
    ApiV2.calculateCredits (JS.of_Z c) (JS.VNumber (JS.Fin q)) = Some (JS.of_Z m) /\
    Policy.creditsForSeconds c q n /\
    m = Qceiling q * c /\
    n <= m <= n + c.
Proof.
  intros Hc Hq _.
  exists (Z.max 1 (Qfloor (Policy.clamp q + (1 # 2))) * c), (Qceiling q * c).
  split; [apply needed_number | split; [reflexivity |]].
  split; [apply creditsForSeconds_exists | split; [reflexivity |]].
  rewrite clamp_of_nonneg by lra.
  pose proof (Qceiling_positive q Hq). pose proof (round_le_ceiling q).
  pose proof (ceiling_le_round_succ q). nia.
Qed.

Lemma settlement_charge_vs_reservation_witness :
  exists n m : Z,
    @WebhookServer.needed sample_engine (JS.of_Z 15) (JS.VNumber (JS.Fin (31 # 10))) = JS.of_Z n /\
    @ApiV2.calculateCredits sample_engine (JS.of_Z 15) (JS.VNumber (JS.Fin (31 # 10))) =
      Some (JS.of_Z m) /\
    Policy.creditsForSeconds 15 (31 # 10) n /\
    m = Qceiling (31 # 10) * 15 /\
    n <= m <= n + 15.
Proof.
  apply (@settlement_charge_vs_reservation sample_engine 15 (31 # 10)).
  - lia.
  - reflexivity.
  - unfold JS.safe. vm_compute. split; discriminate.
Defined.

(** X14: a job that [POST /generate] let start can be paid for.  If the
    route answered with the started task for some seconds, then a
    [POST /status] for the succeeded task with the same seconds, served by
    the same process while its pool has another client to hand out,
    subtracts [ceil(seconds)] times the price and leaves a balance that is
    not negative.  The two requests have taken two clients of the pool. *)
Theorem started_job_can_be_settled `{JS.Engine} (max : nat) (k b : Z) (q : Q)
    (db db1 : PgPool.database) (email : string) (uri prompt id : JS.value)
    (started : bool) :
  PgPool.users db !! email = Some b ->
  ApiV2Process.post_generate max (JS.of_Z k) db email uri prompt (JS.VNumber (JS.Fin q))
    started = (db1, ApiV2Process.Started) ->
  JS.truthy id = true ->
  ApiV2.int4 (Qceiling q * k) = true ->
  ApiV2.int4 (b - Qceiling q * k) = true ->
  (PgPool.checked_out db1 < max)%nat ->
  ApiV2Process.post_status max (JS.of_Z k) db1 email id (JS.VNumber (JS.Fin q))
    (Some ApiV2.SUCCEEDED) =
    (PgPool.mkDatabase (<[email := b - Qceiling q * k]> (PgPool.users db))
       (PgPool.checked_out db + 2),
     ApiV2.TaskWithCredits ApiV2.SUCCEEDED (b - Qceiling q * k)) /\
  0 <= b - Qceiling q * k.
Proof.
  intros Hrow Hgen Hid Hc Hb Hfree.
  destruct (started_generate max k db db1 email uri prompt q started b Hrow Hgen)
    as (Hq & Hpos & ->).
  split; [| exact Hpos].
  rewrite (process_status_succeeded max k b q) by assumption.
  cbn [PgPool.users PgPool.checked_out]. do 2 f_equal. lia.
Qed.

Lemma started_job_can_be_settled_witness :
  @ApiV2Process.post_status sample_engine 10 (JS.of_Z 15) (database_with 100 1)
    "ada@example.com" (JS.VString "task-1") (JS.VNumber (JS.Fin (5 # 1)))
    (Some ApiV2.SUCCEEDED) =
    (PgPool.mkDatabase (<["ada@example.com" := 100 - Qceiling (5 # 1) * 15]> (users_table 100))
       (0 + 2),
     ApiV2.TaskWithCredits ApiV2.SUCCEEDED (100 - Qceiling (5 # 1) * 15)) /\
  0 <= 100 - Qceiling (5 # 1) * 15.
Proof.
  apply (@started_job_can_be_settled sample_engine 10 15 100 (5 # 1) (database_with 100 0)
           (database_with 100 1) "ada@example.com" (JS.VString "https://example.com/clip.mp4")
           (JS.VString "add rain") (JS.VString "task-1") true);
    try (vm_compute; reflexivity).
  cbn. lia.
Defined.

(** X15: [POST /status] takes the seconds from the request and does not
    look at their sign.  For a succeeded task, seconds of -1 or less make
    [subtractCredits] subtract a negative amount: the stored balance goes
    up (the pool having a client to hand out). *)
Theorem negative_seconds_raise_balance `{JS.Engine} (max : nat) (k b : Z) (q : Q)
    (db : PgPool.database) (email : string) (id : JS.value) :
  0 < k ->
  (q <= -1)%Q ->
  JS.truthy id = true ->
  PgPool.users db !! email = Some b ->
  ApiV2.int4 (Qceiling q * k) = true ->
  ApiV2.int4 (b - Qceiling q * k) = true ->
  (PgPool.checked_out db < max)%nat ->
  exists gain : Z,
    0 < gain /\
    gain = - Qceiling q * k /\
    ApiV2Process.post_status max (JS.of_Z k) db email id (JS.VNumber (JS.Fin q))
      (Some ApiV2.SUCCEEDED) =
      (PgPool.mkDatabase (<[email := b + gain]> (PgPool.users db))
         (S (PgPool.checked_out db)),
       ApiV2.TaskWithCredits ApiV2.SUCCEEDED (b + gain)).
Proof.
  intros Hk Hq Hid Hrow Hc Hb Hfree.
  assert (Qceiling q <= -1) as Hceil.
  { pose proof (Qceiling_resp_le q (inject_Z (-1)) Hq) as Hle.
    now rewrite Qceiling_Z in Hle. }
  assert (Qeq_bool q 0 = false) as Hnz.
  { destruct (Qeq_bool q 0) eqn:E; [| reflexivity].
    apply Qeq_bool_eq in E. lra. }
  exists (- Qceiling q * k). split; [nia | split; [reflexivity |]].
  replace (b + - Qceiling q * k) with (b - Qceiling q * k) by lia.
  now apply process_status_succeeded.
Qed.

Lemma negative_seconds_raise_balance_witness :
  exists gain : Z,
    0 < gain /\
    gain = - Qceiling (-100 # 1) * 15 /\
    @ApiV2Process.post_status sample_engine 10 (JS.of_Z 15) (database_with 10 0)
      "ada@example.com" (JS.VString "task-1") (JS.VNumber (JS.Fin (-100 # 1)))
      (Some ApiV2.SUCCEEDED) =
      (PgPool.mkDatabase (<["ada@example.com" := 10 + gain]> (users_table 10)) 1,
       ApiV2.TaskWithCredits ApiV2.SUCCEEDED (10 + gain)).
Proof.
  apply (@negative_seconds_raise_balance sample_engine 10 15 10 (-100 # 1) (database_with 10 0)
           "ada@example.com" (JS.VString "task-1")).
  - lia.
  - unfold Qle. cbn. lia.
  - reflexivity.
  - reflexivity.
  - vm_compute. reflexivity.
  - vm_compute. reflexivity.
  - cbn. lia.
Defined.

Section Percentage.
Import JS JSMore ApiV2Routes.

Lemma getPercentageUsed_known tier (c b : Z) :
  tier_credits tier = Some c ->
  getPercentageUsed tier (of_Z b) =
  Fin (inject_Z 100 + - (inject_Z b / inject_Z c * inject_Z 100)).
Proof.
  intros Ht. pose proof (tier_credits_positive tier c Ht) as Hc.
  unfold getPercentageUsed. rewrite Ht. unfold div, of_Z. cbv beta iota.
  assert (Qeq_bool (inject_Z c) 0 = false) as Hnz.
  { destruct (Qeq_bool (inject_Z c) 0) eqn:E; [| reflexivity].
    apply Qeq_bool_eq in E. unfold Qeq in E. cbn in E. lia. }
  rewrite Hnz. reflexivity.
Qed.

End Percentage.

(** X16: [getPercentageUsed] on the eighths of a tier.  For a known tier
    name and a balance of [k] eighths of the tier's credits (a balance the
    integer column can hold), the three operations are exact and the result
    is [100 - 12.5 * k]: 100 for an empty balance, 0 for a full one, between
    0 and 100 in between, and negative once the balance exceeds the tier's
    credits.  An unknown tier name gives 0 whatever the balance. *)
Theorem percentage_used (tier : option string) (b k c : Z) :
  ApiV2Routes.tier_credits tier = Some c ->
  8 * b = k * c ->
  ApiV2.int4 b = true ->
  (exists r : Q,
     ApiV2Routes.getPercentageUsed tier (JS.of_Z b) = JS.Fin r /\
     (r * 2 == inject_Z (200 - 25 * k))%Q /\
     (0 <= k <= 8 -> (0 <= r <= 100)%Q) /\
     (8 < k -> (r < 0)%Q)) /\
  (forall other balance,
     ApiV2Routes.tier_credits other = None ->
     ApiV2Routes.getPercentageUsed other balance = JS.of_Z 0).
Proof.
  intros Ht Hk _. split.
  - pose proof (tier_credits_positive tier c Ht) as Hc.
    eexists. split; [apply (getPercentageUsed_known tier c b Ht) |].
    assert (0 < inject_Z c)%Q as HcQ.
    { rewrite Zlt_Qlt in Hc. exact Hc. }
    assert (inject_Z b / inject_Z c * inject_Z c == inject_Z b)%Q as Hdiv.
    { rewrite Qmult_comm. apply Qmult_div_r. lra. }
    assert (8 * inject_Z b == inject_Z k * inject_Z c)%Q as HkQ.
    { change 8%Q with (inject_Z 8). rewrite <- !inject_Z_mult. now rewrite Hk. }
    set (x := (inject_Z b / inject_Z c)%Q) in *.
    assert (8 * x == inject_Z k)%Q as Hx.
    { apply (Qmult_inj_r _ _ (inject_Z c)); [lra |].
      rewrite <- HkQ, <- Hdiv. ring. }
    change (inject_Z 100) with 100%Q.
    assert (inject_Z (200 - 25 * k) == 200 - 25 * inject_Z k)%Q as Hr.
    { unfold Z.sub. rewrite inject_Z_plus, inject_Z_opp, inject_Z_mult. reflexivity. }
    split; [| split].
    + rewrite Hr, <- Hx. ring.
    + intros [Hk0 Hk8]. rewrite Zle_Qle in Hk0, Hk8.
      change (inject_Z 0) with 0%Q in Hk0. change (inject_Z 8) with 8%Q in Hk8. lra.
    + intros Hk8. rewrite Zlt_Qlt in Hk8. change (inject_Z 8) with 8%Q in Hk8. lra.
  - intros other balance Hnone. unfold ApiV2Routes.getPercentageUsed. now rewrite Hnone.
Qed.

Lemma percentage_used_witness :
  (exists r : Q,
     ApiV2Routes.getPercentageUsed (Some "Starter") (JS.of_Z 4500) = JS.Fin r /\
     (r * 2 == inject_Z (200 - 25 * 12))%Q /\
     (0 <= 12 <= 8 -> (0 <= r <= 100)%Q) /\
     (8 < 12 -> (r < 0)%Q)) /\
  (forall other balance,
     ApiV2Routes.tier_credits other = None ->
     ApiV2Routes.getPercentageUsed other balance = JS.of_Z 0).
Proof.
  apply (percentage_used (Some "Starter") 4500 12 3000); reflexivity.
Defined.

(** X17: [POST /auth] and [GET /me] never agree on the subscription
    status of a user: where one says ['active'] the other says ['none'];
    and [POST /auth] answers [needsSubscription: false] for every user,
    subscribed or not. *)
Theorem auth_and_me_disagree (r : ApiV2Routes.row) :
  ApiV2Routes.subscription_status (ApiV2Routes.auth_account r) <>
    ApiV2Routes.subscription_status (ApiV2Routes.me_account r) /\
  (ApiV2Routes.subscription_status (ApiV2Routes.me_account r) = "active" <->
     ApiV2Routes.plan_id r <> Some "none") /\
  ApiV2Routes.needsSubscription (ApiV2Routes.auth_account r) = Some false.
Proof.
  unfold ApiV2Routes.auth_account, ApiV2Routes.me_account, ApiV2Routes.plan_is_not_none.
  cbn [ApiV2Routes.subscription_status ApiV2Routes.needsSubscription].
  destruct (ApiV2Routes.plan_id r) as [p|].
  - destruct (String.eqb p "none") eqn:E; cbn [negb].
    + apply String.eqb_eq in E. subst p.
      split; [discriminate | split; [| reflexivity]].
      split; [discriminate | congruence].
    + apply String.eqb_neq in E.
      split; [discriminate | split; [| reflexivity]].
      split; [congruence | reflexivity].
  - split; [discriminate | split; [| reflexivity]].
    split; [discriminate | reflexivity].
Qed.

(** ** [redact] *)

Section Redact.
Import JS JSMore ApiV2Routes.

Lemma split_free c s : free_of c s -> split c s = [s].
Proof.
  induction s as [| x rest IH]; [reflexivity |].
  intros [Hx Hrest]. cbn [split].
  apply Ascii.eqb_neq in Hx. rewrite Hx, (IH Hrest). reflexivity.
Qed.

Lemma split_at c a b :
  free_of c a -> split c (a +:+ String c b) = a :: split c b.
Proof.
  induction a as [| x rest IH]; intros Ha.
  - change (EmptyString +:+ String c b) with (String c b). cbn [split].
    now rewrite Ascii.eqb_refl.
  - destruct Ha as [Hx Hrest].
    change (String x rest +:+ String c b) with (String x (rest +:+ String c b)).
    cbn [split]. apply Ascii.eqb_neq in Hx. rewrite Hx, (IH Hrest). reflexivity.
Qed.

End Redact.

Section RedactShape.
Import JS JSMore ApiV2Routes.

Lemma free_of_app c a b : free_of c a -> free_of c b -> free_of c (a +:+ b).
Proof.
  induction a as [| x rest IH]; intros Ha Hb; [exact Hb |].
  destruct Ha as [Hx Hrest]. split; [exact Hx | now apply IH].
Qed.

End RedactShape.

(** X18: of an address [name@base.ext] (no at sign in the three parts, no
    dot in [base] and [ext]) [redact] keeps the first three characters of
    the name and of the base, each followed by three dots, and the whole
    extension. *)
Theorem redact_shape (name base ext : string) :
  JSMore.free_of JSMore.at_sign name ->
  JSMore.free_of JSMore.at_sign base ->
  JSMore.free_of JSMore.at_sign ext ->
  JSMore.free_of JSMore.dot base ->
  JSMore.free_of JSMore.dot ext ->
  ApiV2Routes.redact (name +:+ "@" +:+ base +:+ "." +:+ ext) =
  (JSMore.slice0 3 name +:+ "...") +:+ "@" +:+ (JSMore.slice0 3 base +:+ "..." +:+ ext).
Proof.
  intros Hn Hb He Hdb Hde. unfold ApiV2Routes.redact.
  change (name +:+ "@" +:+ base +:+ "." +:+ ext)
    with (name +:+ String JSMore.at_sign (base +:+ String JSMore.dot ext)).
  rewrite (split_at JSMore.at_sign name _ Hn).
  rewrite (split_free JSMore.at_sign (base +:+ String JSMore.dot ext)).
  - rewrite (split_at JSMore.dot base ext Hdb), (split_free JSMore.dot ext Hde).
    reflexivity.
  - apply free_of_app; [exact Hb |]. split; [| exact He].
    intros Heq. vm_compute in Heq. discriminate.
Qed.

Lemma redact_shape_witness :
  ApiV2Routes.redact ("grace" +:+ "@" +:+ "example" +:+ "." +:+ "com") =
  (JSMore.slice0 3 "grace" +:+ "...") +:+ "@" +:+ (JSMore.slice0 3 "example" +:+ "..." +:+ "com").
Proof.
  apply (redact_shape "grace" "example" "com");
    cbn; repeat split; intros Heq; vm_compute in Heq; discriminate.
Defined.

(** X19: what [redact] makes of addresses that lack a part.  Without an
    at sign the answer is ['[unknown]']; with an at sign but no dot after
    it, the place of the extension is taken by the text ['undefined']. *)
Theorem redact_incomplete (name domain : string) :
  JSMore.free_of JSMore.at_sign name ->
  JSMore.free_of JSMore.at_sign domain ->
  JSMore.free_of JSMore.dot domain ->
  ApiV2Routes.redact name = "[unknown]" /\
  ApiV2Routes.redact (name +:+ "@" +:+ domain) =
    (JSMore.slice0 3 name +:+ "...") +:+ "@" +:+ (JSMore.slice0 3 domain +:+ "..." +:+ "undefined").
Proof.
  intros Hn Hd Hdot. unfold ApiV2Routes.redact. split.
  - now rewrite (split_free JSMore.at_sign name Hn).
  - change (name +:+ "@" +:+ domain) with (name +:+ String JSMore.at_sign domain).
    rewrite (split_at JSMore.at_sign name domain Hn), (split_free JSMore.at_sign domain Hd).
    now rewrite (split_free JSMore.dot domain Hdot).
Qed.

Lemma redact_incomplete_witness :
  ApiV2Routes.redact "grace" = "[unknown]" /\
  ApiV2Routes.redact ("grace" +:+ "@" +:+ "localhost") =
    (JSMore.slice0 3 "grace" +:+ "...") +:+ "@" +:+
    (JSMore.slice0 3 "localhost" +:+ "..." +:+ "undefined").
Proof.
  apply (redact_incomplete "grace" "localhost");
    cbn; repeat split; intros Heq; vm_compute in Heq; discriminate.
Defined.

(** ** The start-up check of the Postgres-backed server *)

Section Startup.
Import JS WebhookServer.
Context `{Engine}.

Lemma filter_nil_false {A} (f : A -> bool) (l : list A) (x : A) :
  List.filter f l = [] -> In x l -> f x = false.
Proof.
  induction l as [| y rest IH]; [contradiction |].
  cbn [List.filter]. destruct (f y) eqn:E; [discriminate |].
  intros Hnil [-> | Hin]; [exact E | now apply IH].
Qed.

Lemma billableSeconds_shape (field : value) :
  billableSeconds field = NaN \/ billableSeconds field = PosInfinity \/
  exists z, billableSeconds field = of_Z z.
Proof.
  unfold billableSeconds, requestedSeconds.
  destruct (Number (or_else field (VNumber (of_Z 0)))) as [| | | q].
  - now left.
  - right. now left.
  - right. right. exists (Z.max 1 0). cbn [Math_max]. apply (Math_max_of_Z 1 0).
  - right. right. unfold Math_max at 2, of_Z at 2.
    destruct (Qle_bool (inject_Z 0) q); cbn [Math_round]; eexists; apply Math_max_of_Z.
Qed.

Lemma needed_at_zero_price (field : value) :
  needed (of_Z 0) field = NaN \/ needed (of_Z 0) field = of_Z 0.
Proof.
  unfold needed.
  destruct (billableSeconds_shape field) as [-> | [-> | [z ->]]].
  - now left.
  - now left.
  - right. rewrite mul_of_Z. now rewrite Z.mul_0_r.
Qed.

Lemma needed_at_no_price (field : value) : needed NaN field = NaN.
Proof. unfold needed. destruct (billableSeconds field); reflexivity. Qed.

End Startup.

(** X20: the start-up check of the Postgres-backed server is inverted: it
    throws when a listed variable is set.  So whenever that server gets
    past it, [CREDITS_PER_SECOND] is unset or empty, the price per second
    is [NaN] or 0, and no reserve request ever needs a positive number of
    credits: every request needs [NaN] or 0. *)
Theorem startup_check_leaves_no_price `{JS.Engine} (env : gmap string string) (field : JS.value) :
  JS.StringToNumber "" = JS.of_Z 0 ->
  PostgresStartup.verifyEnvVariables env = true ->
  PostgresStartup.is_set env "CREDITS_PER_SECOND" = false /\
  (WebhookServer.needed (PostgresStartup.creditsPerSecond env) field = JS.NaN \/
   WebhookServer.needed (PostgresStartup.creditsPerSecond env) field = JS.of_Z 0).
Proof.
  intros Hempty Hcheck.
  assert (PostgresStartup.is_set env "CREDITS_PER_SECOND" = false) as Hunset.
  { unfold PostgresStartup.verifyEnvVariables in Hcheck.
    destruct (List.filter _ PostgresStartup.checked_variables) eqn:Ef; [| discriminate].
    apply (filter_nil_false _ _ "CREDITS_PER_SECOND" Ef).
    unfold PostgresStartup.checked_variables. cbn. tauto. }
  split; [exact Hunset |].
  unfold PostgresStartup.creditsPerSecond. unfold PostgresStartup.is_set in Hunset.
  destruct (env !! "CREDITS_PER_SECOND") as [v|].
  - destruct (String.eqb v "") eqn:E; [| discriminate].
    apply String.eqb_eq in E. subst v. cbn [JS.Number]. rewrite Hempty.
    apply needed_at_zero_price.
  - left. apply needed_at_no_price.
Qed.

Lemma startup_check_leaves_no_price_witness :
  PostgresStartup.is_set {[ "NODE_ENV" := "production" ]} "CREDITS_PER_SECOND" = false /\
  (@WebhookServer.needed sample_engine
     (@PostgresStartup.creditsPerSecond sample_engine {[ "NODE_ENV" := "production" ]})
     (JS.VNumber (JS.of_Z 5)) = JS.NaN \/
   @WebhookServer.needed sample_engine
     (@PostgresStartup.creditsPerSecond sample_engine {[ "NODE_ENV" := "production" ]})
     (JS.VNumber (JS.of_Z 5)) = JS.of_Z 0).
Proof.
  apply (@startup_check_leaves_no_price sample_engine {[ "NODE_ENV" := "production" ]}
           (JS.VNumber (JS.of_Z 5))).
  - reflexivity.
  - vm_compute. reflexivity.
Defined.

(** ** The panel's side of a reservation *)

Section PanelMore.
Import JS JSMore Panel PanelRoutes.
Context `{Engine}.

Lemma reserve_whole (B R : Z) id previous :
  reserveCreditsForGeneration (mkPanel true (Some (VNumber (of_Z B))) previous)
    (WebhookServer.JobReserved id (of_Z R)) =
  mkPanel true (Some (VNumber (of_Z (B - R)))) (Some (mkReservation id (VNumber (of_Z R)))).
Proof.
  unfold reserveCreditsForGeneration. cbn [licensingEnabled creditBalance json of_Z Number].
  fold (of_Z B). fold (of_Z R). now rewrite sub_of_Z.
Qed.

(** A reservation of [NaN] credits arrives as [null]: the cached balance
    stays as it was. *)
Lemma reserve_null (B : Z) id previous :
  reserveCreditsForGeneration (mkPanel true (Some (VNumber (of_Z B))) previous)
    (WebhookServer.JobReserved id NaN) =
  mkPanel true (Some (VNumber (of_Z B))) (Some (mkReservation id VNull)).
Proof.
  unfold reserveCreditsForGeneration. cbn [licensingEnabled creditBalance json Number].
  rewrite sub_of_Z. now rewrite Z.sub_0_r.
Qed.

(** A settlement against a reservation of [null] refunds nothing. *)
Lemma settle_null balance id task success seconds :
  settleCreditsOnCompletion (mkPanel true (Some balance) (Some (mkReservation id VNull)))
    task success seconds =
  mkPanel true (Some balance) None.
Proof.
  unfold settleCreditsOnCompletion.
  cbn [licensingEnabled creditBalance currentReservation].
  destruct success.
  - unfold success_refund, reserved_or, or_else. cbn [reservedCredits truthy Number].
    now rewrite refund_of_nothing.
  - reflexivity.
Qed.

End PanelMore.

(** X21: what a reservation costs on the panel.  After a reserve answer
    for [R] credits the cached balance is down by [R]; settling a failed job
    puts all of [R] back; settling a successful job of a whole number [s] of
    seconds leaves the cached balance down by [min(R, 15 * s)]: never more
    than was reserved (amounts within 2^53). *)
Theorem panel_reserve_then_settle `{JS.Engine} (B R s : Z) (id task : string)
    (seconds : JS.number) (previous : option Panel.reservation) :
  0 < R ->
  0 <= s ->
  JS.safe B -> JS.safe R -> JS.safe (B - R) -> JS.safe (15 * s) ->
  let p := Panel.mkPanel true (Some (JS.VNumber (JS.of_Z B))) previous in
  let p1 := PanelRoutes.reserveCreditsForGeneration p
              (WebhookServer.JobReserved id (JS.of_Z R)) in
  Panel.creditBalance p1 = Some (JS.VNumber (JS.of_Z (B - R))) /\
  Panel.currentReservation p1 = Some (Panel.mkReservation id (JS.VNumber (JS.of_Z R))) /\
  Panel.creditBalance (Panel.settleCreditsOnCompletion p1 task false seconds) =
    Some (JS.VNumber (JS.of_Z B)) /\
  Panel.creditBalance (Panel.settleCreditsOnCompletion p1 task true (JS.of_Z s)) =
    Some (JS.VNumber (JS.of_Z (B - Z.min R (15 * s)))).
Proof.
  intros HR _ _ _ _ _ p p1. subst p p1. rewrite reserve_whole.
  split; [reflexivity | split; [reflexivity | split]].
  - rewrite settle_failure_refunds by exact HR. do 3 f_equal. lia.
  - rewrite settle_refunds by exact HR. unfold Policy.refund. do 3 f_equal. lia.
Qed.

Lemma panel_reserve_then_settle_witness :
  let p := Panel.mkPanel true (Some (JS.VNumber (JS.of_Z 100))) None in
  let p1 := @PanelRoutes.reserveCreditsForGeneration sample_engine p
              (WebhookServer.JobReserved "task_1700000000123" (JS.of_Z 75)) in
  Panel.creditBalance p1 = Some (JS.VNumber (JS.of_Z (100 - 75))) /\
  Panel.currentReservation p1 =
    Some (Panel.mkReservation "task_1700000000123" (JS.VNumber (JS.of_Z 75))) /\
  Panel.creditBalance
    (@Panel.settleCreditsOnCompletion sample_engine p1 "task_1700000000123" false (JS.of_Z 0)) =
    Some (JS.VNumber (JS.of_Z 100)) /\
  Panel.creditBalance
    (@Panel.settleCreditsOnCompletion sample_engine p1 "task_1700000000123" true (JS.of_Z 3)) =
    Some (JS.VNumber (JS.of_Z (100 - Z.min 75 (15 * 3)))).
Proof.
  apply (@panel_reserve_then_settle sample_engine 100 75 3 "task_1700000000123"
           "task_1700000000123" (JS.of_Z 0) None); unfold JS.safe; lia.
Defined.

(** X22: the refund lives in the panel only.  When a reserve request is
    accepted by the server of [webhook-server.js] and recorded by a panel
    whose cached balance matched the stored one, both stand at the old
    balance minus the credits needed; after the panel settles the
    successful job (a whole number of seconds) its cached balance is above
    the stored balance by exactly the refund, the server having no route
    that gives credits back. *)
Theorem refund_is_not_stored `{JS.Engine} (c b n a : Z) (now : Z)
    (st : WebhookServer.store) (email task : string) (q : Q)
    (previous : option Panel.reservation) :
  0 < c ->
  WebhookServer.balance (WebhookServer.user_or_empty st email) = JS.VNumber (JS.of_Z b) ->
  Policy.creditsForSeconds c q n ->
  n <= b ->
  0 <= a ->
  JS.safe b -> JS.safe (15 * a) ->
  let served := WebhookServer.post_v1_jobs (JS.of_Z c) now st email (JS.VNumber (JS.Fin q)) in
  let p1 := PanelRoutes.reserveCreditsForGeneration
              (Panel.mkPanel true (Some (JS.VNumber (JS.of_Z b))) previous) (snd served) in
  let p2 := Panel.settleCreditsOnCompletion p1 task true (JS.of_Z a) in
  WebhookServer.balance <$> WebhookServer.usersByEmail (fst served) !! email =
    Some (JS.VNumber (JS.of_Z (b - n))) /\
  Panel.creditBalance p1 = Some (JS.VNumber (JS.of_Z (b - n))) /\
  Panel.creditBalance p2 =
    Some (JS.VNumber (JS.of_Z (b - n + Policy.refund n (15 * a)))).
Proof.
  intros Hc Hb Hn Hle _ _ _ served p1 p2.
  destruct (post_v1_jobs_covered (JS.of_Z c) now st email (JS.VNumber (JS.Fin q)) b n
              Hb (needed_policy c q n Hn) Hle) as (st' & Hserved & Hbal & _).
  subst p2 p1 served. rewrite Hserved. cbn [fst snd].
  split; [exact Hbal |]. rewrite reserve_whole. split; [reflexivity |].
  apply settle_refunds.
  pose proof (creditsForSeconds_nonneg c q n ltac:(lia) Hn). lia.
Qed.

Lemma refund_is_not_stored_witness :
  let served := @WebhookServer.post_v1_jobs sample_engine (JS.of_Z 15) 1700000000123
                  (one_user 100) "ada@example.com" (JS.VNumber (JS.Fin (5 # 1))) in
  let p1 := @PanelRoutes.reserveCreditsForGeneration sample_engine
              (Panel.mkPanel true (Some (JS.VNumber (JS.of_Z 100))) None) (snd served) in
  let p2 := @Panel.settleCreditsOnCompletion sample_engine p1 "task_1700000000123" true
              (JS.of_Z 3) in
  WebhookServer.balance <$> WebhookServer.usersByEmail (fst served) !! "ada@example.com" =
    Some (JS.VNumber (JS.of_Z (100 - 75))) /\
  Panel.creditBalance p1 = Some (JS.VNumber (JS.of_Z (100 - 75))) /\
  Panel.creditBalance p2 =
    Some (JS.VNumber (JS.of_Z (100 - 75 + Policy.refund 75 (15 * 3)))).
Proof.
  apply (@refund_is_not_stored sample_engine 15 100 75 3 1700000000123 (one_user 100)
           "ada@example.com" "task_1700000000123" (5 # 1) None);
    try lia; try (unfold JS.safe; lia); try reflexivity.
  exists 5. split; [split |]; vm_compute; (reflexivity || discriminate).
Defined.

(** X23: the panel's estimate and the server's price are not the same
    number.  For seconds that are not negative and are given in binary
    fractions [m / 2^j] short enough for the product with 15 to be exact,
    and the price of 15 credits per second, what the server needs for a
    reserve request is at most 8 credits below and at most 15 credits above
    what [calculateCreditsNeeded] tells the panel. *)
Theorem estimate_vs_reservation `{JS.Engine} (q : Q) (m : Z) (j : nat) :
  0 <= m ->
  (q == inject_Z m / inject_Z (2 ^ Z.of_nat j))%Q ->
  JS.safe (15 * (m + 1)) ->
  exists n p : Z,
    WebhookServer.needed (JS.of_Z 15) (JS.VNumber (JS.Fin q)) = JS.of_Z n /\
    Panel.calculateCreditsNeeded (JS.Fin q) = JS.of_Z p /\
    Policy.creditsForSeconds 15 q n /\
    p = Qceiling (q * 15) /\
    -8 <= n - p <= 15.
Proof.
  intros Hm Hdyadic _.
  assert (0 <= q)%Q as Hq.
  { rewrite Hdyadic. apply Qle_shift_div_l.
    - rewrite <- (Zlt_Qlt 0). apply Z.pow_pos_nonneg; lia.
    - rewrite Qmult_0_l. now rewrite <- (Zle_Qle 0). }
  exists (Z.max 1 (Qfloor (Policy.clamp q + (1 # 2))) * 15), (Qceiling (q * 15)).
  split; [apply needed_number | split; [reflexivity |]].
  split; [apply creditsForSeconds_exists | split; [reflexivity |]].
  rewrite clamp_of_nonneg by exact Hq.
  pose proof (Qfloor_le (q + (1 # 2))) as Hf1.
  pose proof (Qlt_floor (q + (1 # 2))) as Hf2.
  pose proof (Qle_ceiling (q * 15)) as Hp1.
  pose proof (Qceiling_lt (q * 15)) as Hp2.
  rewrite inject_Z_plus in Hf2. change (inject_Z 1) with 1%Q in Hf2.
  unfold Z.sub in Hp2. rewrite inject_Z_plus, inject_Z_opp in Hp2.
  change (inject_Z 1) with 1%Q in Hp2.
  set (f := Qfloor (q + (1 # 2))) in *. set (p := Qceiling (q * 15)) in *.
  assert (30 * f <= 2 * p + 15) as H1.
  { rewrite Zle_Qle, inject_Z_plus, !inject_Z_mult.
    change (inject_Z 30) with 30%Q. change (inject_Z 2) with 2%Q.
    change (inject_Z 15) with 15%Q. lra. }
  assert (2 * p < 30 * f + 17) as H2.
  { rewrite Zlt_Qlt, inject_Z_plus, !inject_Z_mult.
    change (inject_Z 30) with 30%Q. change (inject_Z 2) with 2%Q.
    change (inject_Z 17) with 17%Q. lra. }
  assert (0 <= p) as H3.
  { assert (-1 < p) as Hlt; [| lia].
    rewrite Zlt_Qlt. change (inject_Z (-1)) with (-1)%Q. lra. }
  assert (0 <= f) as H4.
  { assert (-1 < f) as Hlt; [| lia].
    rewrite Zlt_Qlt. change (inject_Z (-1)) with (-1)%Q. lra. }
  lia.
Qed.

Lemma estimate_vs_reservation_witness :
  exists n p : Z,
    @WebhookServer.needed sample_engine (JS.of_Z 15) (JS.VNumber (JS.Fin (7 # 2))) = JS.of_Z n /\
    Panel.calculateCreditsNeeded (JS.Fin (7 # 2)) = JS.of_Z p /\
    Policy.creditsForSeconds 15 (7 # 2) n /\
    p = Qceiling ((7 # 2) * 15) /\
    -8 <= n - p <= 15.
Proof.
  apply (@estimate_vs_reservation sample_engine (7 # 2) 7 1).
  - lia.
  - reflexivity.
  - unfold JS.safe. lia.
Defined.

(** ** What the handlers leave alone *)

(** X24: [POST /status] writes to the table only when it answers with the
    new balance.  A bad request, a task that is not [SUCCEEDED], a failed
    lookup of the task and every error of [subtractCredits] (no row for the
    email, a price that is [NaN], an amount the integer column refuses)
    leave the table as it was; and no request ever touches the row of
    another email. *)
Theorem status_writes_only_on_success `{JS.Engine} (cps : JS.number)
    (users : gmap string Z) (email : string) (id seconds : JS.value)
    (task : option ApiV2.task_status) :
  let served := ApiV2.post_status cps users email id seconds task in
  ((forall balance, snd served <> ApiV2.TaskWithCredits ApiV2.SUCCEEDED balance) ->
   fst served = users) /\
  (task <> Some ApiV2.SUCCEEDED -> fst served = users) /\
  (users !! email = None -> served = (users,
     if negb (JS.truthy id) || negb (JS.truthy seconds) then ApiV2.StatusBadRequest
     else match task with
          | Some ApiV2.SUCCEEDED | None => ApiV2.StatusInternalError
          | Some other => ApiV2.Task other
          end)) /\
  (forall other, other <> email -> fst served !! other = users !! other).
Proof.
  intros served. subst served. unfold ApiV2.post_status, ApiV2.subtractCredits.
  destruct (negb (JS.truthy id) || negb (JS.truthy seconds)).
  { repeat split; reflexivity. }
  destruct task as [[| | | | |] |]; try (repeat split; intros; reflexivity || congruence).
  destruct (ApiV2.calculateCredits cps seconds) as [credits|];
    [| repeat split; intros; reflexivity].
  destruct (JS.as_integer credits) as [c|]; [| repeat split; intros; reflexivity].
  destruct (ApiV2.int4 c); cbn [negb]; [| repeat split; intros; reflexivity].
  destruct (users !! email) as [b|] eqn:Erow; [| repeat split; intros; reflexivity].
  destruct (ApiV2.int4 (b - c)); [| repeat split; intros; reflexivity || congruence].
  cbn [fst snd]. repeat split.
  - intros Hnot. now destruct (Hnot (b - c)).
  - congruence.
  - discriminate.
  - intros other Hother. now rewrite lookup_insert_ne.
Qed.

(** X25: a webhook delivery touches at most one user record, the one of
    the order's customer email; a delivery whose order names no customer,
    or whose body could not be read, touches none. *)
Theorem delivery_touches_only_its_customer `{JS.Engine}
    (plans : WebhookServer.selling_plans) (now : Z)
    (st : WebhookServer.store) (d : WebhookServer.delivery) :
  let st1 := fst (WebhookServer.post_v1_webhooks_shopify plans now st d) in
  (forall o email other,
     WebhookServer.body d = Some o ->
     WebhookServer.customer_email o = Some email ->
     other <> email ->
     WebhookServer.usersByEmail st1 !! other = WebhookServer.usersByEmail st !! other) /\
  (forall o,
     WebhookServer.body d = Some o ->
     WebhookServer.customer_email o = None ->
     WebhookServer.usersByEmail st1 = WebhookServer.usersByEmail st) /\
  (WebhookServer.body d = None ->
     WebhookServer.usersByEmail st1 = WebhookServer.usersByEmail st).
Proof.
  intros st1. subst st1. unfold WebhookServer.post_v1_webhooks_shopify.
  destruct (WebhookServer.already_processed st (WebhookServer.webhookId d));
    [repeat split; intros; reflexivity |].
  destruct (WebhookServer.hmac d); cbn [fst]; try (repeat split; intros; reflexivity).
  rewrite mark_processed_users. repeat split.
  - intros o email other Hbody Hemail Hother. rewrite Hbody.
    unfold WebhookServer.grant.
    destruct (WebhookServer.subscriptionItems o); [reflexivity |].
    rewrite Hemail. destruct (String.eqb email ""); [reflexivity |].
    unfold WebhookServer.set_user. cbn [WebhookServer.usersByEmail].
    now rewrite lookup_insert_ne.
  - intros o Hbody Hemail. rewrite Hbody. unfold WebhookServer.grant.
    destruct (WebhookServer.subscriptionItems o); [reflexivity |].
    now rewrite Hemail.
  - intros Hbody. now rewrite Hbody.
Qed.

(** ** The reserve path of [webhook-server.js], by the policy *)

(** X26: when the balance covers the credits of the requested seconds,
    [max(1, round(seconds))] times the price with negative seconds clamped
    to 0, the reserve of [webhook-server.js] succeeds; the stored balance
    becomes the old balance minus that amount, the answer's
    [reservedCredits] is the same amount, and nothing else in the store
    moves (whole-number balance and price, amounts within 2^53). *)
Theorem reserve_debits_exactly `{JS.Engine}
    (c : Z) (now : Z) (st : WebhookServer.store) (email : string) (q : Q) (b n : Z) :
  WebhookServer.balance (WebhookServer.user_or_empty st email) = JS.VNumber (JS.of_Z b) ->
  0 <= c ->
  JS.safe b ->
  Policy.creditsForSeconds c q n ->
  n <= b ->
  exists st',
    WebhookServer.post_v1_jobs (JS.of_Z c) now st email (JS.VNumber (JS.Fin q)) =
      (st', WebhookServer.JobReserved (WebhookServer.task_id now) (JS.of_Z n)) /\
    WebhookServer.balance <$> WebhookServer.usersByEmail st' !! email =
      Some (JS.VNumber (JS.of_Z (b - n))) /\
    (forall other, other <> email ->
       WebhookServer.usersByEmail st' !! other = WebhookServer.usersByEmail st !! other) /\
    WebhookServer.processedWebhookIds st' = WebhookServer.processedWebhookIds st.
Proof.
  intros Hb _ _ Hn Hle.
  exact (post_v1_jobs_covered (JS.of_Z c) now st email (JS.VNumber (JS.Fin q)) b n
           Hb (needed_policy c q n Hn) Hle).
Qed.

Lemma reserve_debits_exactly_witness :
  exists st',
    @WebhookServer.post_v1_jobs sample_engine (JS.of_Z 15) 1700000000123 (one_user 100)
      "ada@example.com" (JS.VNumber (JS.Fin (31 # 10))) =
      (st', WebhookServer.JobReserved (WebhookServer.task_id 1700000000123) (JS.of_Z 45)) /\
    WebhookServer.balance <$> WebhookServer.usersByEmail st' !! "ada@example.com" =
      Some (JS.VNumber (JS.of_Z (100 - 45))) /\
    (forall other, other <> "ada@example.com" ->
       WebhookServer.usersByEmail st' !! other =
       WebhookServer.usersByEmail (one_user 100) !! other) /\
    WebhookServer.processedWebhookIds st' = WebhookServer.processedWebhookIds (one_user 100).
Proof.
  apply (@reserve_debits_exactly sample_engine 15 1700000000123 (one_user 100)
           "ada@example.com" (31 # 10) 100 45).
  - reflexivity.
  - lia.
  - unfold JS.safe. lia.
  - exists 3. split; [split |]; vm_compute; (reflexivity || discriminate).
  - lia.
Defined.

(** X27: when the balance is below the credits of the requested seconds,
    the reserve of [webhook-server.js] is answered with the
    insufficient-credits error carrying that amount and the current
    balance, and the store is left exactly as it was. *)
Theorem reserve_insufficient_credits `{JS.Engine}
    (c : Z) (now : Z) (st : WebhookServer.store) (email : string) (q : Q) (b n : Z) :
  WebhookServer.balance (WebhookServer.user_or_empty st email) = JS.VNumber (JS.of_Z b) ->
  0 <= c ->
  Policy.creditsForSeconds c q n ->
  JS.safe n ->
  b < n ->
  WebhookServer.post_v1_jobs (JS.of_Z c) now st email (JS.VNumber (JS.Fin q)) =
  (st, WebhookServer.InsufficientCredits (JS.of_Z n) (JS.VNumber (JS.of_Z b))).
Proof.
  intros Hb _ Hn _ Hlt.
  rewrite post_v1_jobs_refused.
  - now rewrite Hb, (needed_policy c q n Hn).
  - rewrite Hb, (needed_policy c q n Hn). cbn [JS.Number]. rewrite lt_of_Z.
    now apply Z.ltb_lt.
Qed.

Lemma reserve_insufficient_credits_witness :
  @WebhookServer.post_v1_jobs sample_engine (JS.of_Z 15) 1700000000123 (one_user 60)
    "ada@example.com" (JS.VNumber (JS.Fin (5 # 1))) =
  (one_user 60, WebhookServer.InsufficientCredits (JS.of_Z 75) (JS.VNumber (JS.of_Z 60))).
Proof.
  apply (@reserve_insufficient_credits sample_engine 15 1700000000123 (one_user 60)
           "ada@example.com" (5 # 1) 60 75).
  - reflexivity.
  - lia.
  - exists 5. split; [split |]; vm_compute; (reflexivity || discriminate).
  - unfold JS.safe. lia.
  - lia.
Defined.

(** ** The pool of [api/v2] *)

Section PoolMore.
Import JS ApiV2 PgPool ApiV2Process.
Context `{Engine}.

(** One status request: the clients handed out never decrease, grow by
    one at most and stay within the pool, and a request that debits has
    taken one. *)
Lemma post_status_clients max cps db email id seconds task :
  (checked_out db <= max)%nat ->
  let served := post_status max cps db email id seconds task in
  (checked_out (fst served) <= max)%nat /\
  (checked_out db <= checked_out (fst served))%nat /\
  (is_debit (snd served) = true -> checked_out (fst served) = S (checked_out db)).
Proof.
  intros Hmax served. subst served. unfold post_status.
  destruct (negb (truthy id) || negb (truthy seconds));
    [cbn; repeat split; (lia || discriminate) |].
  destruct task as [[| | | | |] |]; try (cbn; repeat split; (lia || discriminate)).
  unfold subtractCredits, connect.
  destruct (checked_out db <? max)%nat eqn:E;
    [| cbn; repeat split; (lia || discriminate)].
  apply Nat.ltb_lt in E. cbn [users checked_out].
  destruct (ApiV2.subtractCredits cps (users db) email seconds) as [[users' balance] |];
    cbn; repeat split; lia.
Qed.

Lemma settle_all_debits max cps email requests : forall db,
  (checked_out db <= max)%nat ->
  (length (List.filter is_debit (snd (settle_all max cps db email requests))) +
   checked_out db <= max)%nat.
Proof.
  induction requests as [| [id seconds] later IH]; intros db Hmax; [cbn; lia |].
  cbn [settle_all].
  destruct (post_status_clients max cps db email id seconds (Some SUCCEEDED) Hmax)
    as (H1 & H2 & H3).
  destruct (post_status max cps db email id seconds (Some SUCCEEDED)) as [db1 answer].
  cbn [fst snd] in *. specialize (IH db1 H1).
  destruct (settle_all max cps db1 email later) as [db2 answers]. cbn [fst snd] in *.
  cbn [List.filter]. destruct (is_debit answer) eqn:Ed; cbn [length]; [| lia].
  specialize (H3 eq_refl). lia.
Qed.

End PoolMore.

(** X28: a process of [api/v2] settles as many jobs as its pool has
    clients, and no more.  Every [POST /status] that debits keeps the
    client [subtractCredits] took, so in any series of status requests for
    succeeded tasks the debits number at most the clients that were free at
    the start; and once every client is out, a request is answered 500 and
    the table stays as it is. *)
Theorem pool_bounds_settlements `{JS.Engine} (max : nat) (cps : JS.number)
    (db : PgPool.database) (email : string) (requests : list (JS.value * JS.value)) :
  (PgPool.checked_out db <= max)%nat ->
  (length (List.filter ApiV2Process.is_debit
             (snd (ApiV2Process.settle_all max cps db email requests))) <=
   max - PgPool.checked_out db)%nat /\
  (forall full id seconds,
     (max <= PgPool.checked_out full)%nat ->
     JS.truthy id = true ->
     JS.truthy seconds = true ->
     ApiV2Process.post_status max cps full email id seconds (Some ApiV2.SUCCEEDED) =
     (full, ApiV2.StatusInternalError)).
Proof.
  intros Hmax. split.
  - pose proof (settle_all_debits max cps email requests db Hmax). lia.
  - intros full id seconds Hfull Hid Hs. now apply process_status_exhausted.
Qed.

Lemma pool_bounds_settlements_witness :
  let requests := repeat (JS.VString "task-1", JS.VNumber (JS.of_Z 1)) 11 in
  let served := @ApiV2Process.settle_all sample_engine 10 (JS.of_Z 15) (database_with 1000 0)
                  "ada@example.com" requests in
  (length (List.filter ApiV2Process.is_debit (snd served)) <= 10 - 0)%nat /\
  PgPool.users (fst served) !! "ada@example.com" = Some 850 /\
  last (snd served) = Some ApiV2.StatusInternalError.
Proof.
  intros requests served.
  destruct (@pool_bounds_settlements sample_engine 10 (JS.of_Z 15) (database_with 1000 0)
              "ada@example.com" requests ltac:(cbn; lia)) as (Hcount & _).
  split; [exact Hcount | split; vm_compute; reflexivity].
Defined.

(** ** Plan ids that name inherited properties *)

(** X29: a plan id that is no key of the [planCredits] literal but names a
    property every object inherits ([constructor], [toString], ...) makes
    the credits of the order that property instead of a number, and the
    sum a concatenation: the stored balance becomes the old balance's
    digits followed by the property's text.  A later renewal of an ordinary
    plan appends the digits of its credits to that string. *)
Theorem inherited_plan_id_spoils_balance `{JS.Engine}
    (plans : WebhookServer.selling_plans) (now1 now2 : Z)
    (st : WebhookServer.store) (d1 d2 : WebhookServer.delivery)
    (o1 o2 : WebhookServer.order) (email text : string) (b : Z) :
  WebhookServerRoutes.non_empty (WebhookServer.webhookId d1) = None ->
  WebhookServerRoutes.non_empty (WebhookServer.webhookId d2) = None ->
  WebhookServer.hmac d1 = WebhookServer.HmacPassed ->
  WebhookServer.hmac d2 = WebhookServer.HmacPassed ->
  WebhookServer.body d1 = Some o1 ->
  WebhookServer.body d2 = Some o2 ->
  WebhookServer.subscriptionItems o1 <> [] ->
  WebhookServer.subscriptionItems o2 <> [] ->
  WebhookServer.customer_email o1 = Some email ->
  WebhookServer.customer_email o2 = Some email ->
  email <> "" ->
  WebhookServer.planCredits plans !!
    WebhookServer.first_plan_id (WebhookServer.subscriptionItems o1) = None ->
  JS.Object_prototype (WebhookServer.first_plan_id (WebhookServer.subscriptionItems o1)) =
    Some (JS.VObject text) ->
  JS.Object_prototype (WebhookServer.first_plan_id (WebhookServer.subscriptionItems o2)) =
    None ->
  WebhookServer.balance (WebhookServer.user_or_empty st email) = JS.VNumber (JS.of_Z b) ->
  let st1 := fst (WebhookServer.post_v1_webhooks_shopify plans now1 st d1) in
  let st2 := fst (WebhookServer.post_v1_webhooks_shopify plans now2 st1 d2) in
  let spoiled := JS.NumberToString (JS.of_Z b) +:+ text in
  let credits :=
    Policy.plan_credits (WebhookServer.SELLING_PLAN_TIER1 plans)
      (WebhookServer.SELLING_PLAN_TIER2 plans) (WebhookServer.SELLING_PLAN_TIER3 plans)
      (WebhookServer.first_plan_id (WebhookServer.subscriptionItems o2)) in
  WebhookServer.balance <$> WebhookServer.usersByEmail st1 !! email =
    Some (JS.VString spoiled) /\
  (spoiled <> "" ->
   WebhookServer.balance <$> WebhookServer.usersByEmail st2 !! email =
     Some (JS.VString (spoiled +:+ JS.NumberToString (JS.of_Z credits)))).
Proof.
  intros Hid1 Hid2 Hmac1 Hmac2 Hbody1 Hbody2 Hs1 Hs2 He1 He2 Hne Hown Hin Hplain Hb
    st1 st2 spoiled credits.
  assert (forall now st' d o, WebhookServerRoutes.non_empty (WebhookServer.webhookId d) = None ->
            WebhookServer.hmac d = WebhookServer.HmacPassed ->
            WebhookServer.body d = Some o ->
            WebhookServer.post_v1_webhooks_shopify plans now st' d =
            (WebhookServer.grant plans now st' o, WebhookServer.Received)) as Hrun.
  { intros now st' d o Hid Hmac Hbody. rewrite accepted_delivery;
      [| now apply already_processed_without_id | assumption].
    now rewrite Hbody, mark_processed_without_id. }
  assert (WebhookServer.balance <$> WebhookServer.usersByEmail st1 !! email =
          Some (JS.VString spoiled)) as H1.
  { subst st1. rewrite (Hrun now1 st d1 o1 Hid1 Hmac1 Hbody1). cbn [fst].
    rewrite (grant_subscription plans now1 st o1 email Hs1 He1 Hne), Hb.
    rewrite balance_or_zero_of_Z, (credits_for_plan_inherited _ _ _ Hown Hin).
    reflexivity. }
  split; [exact H1 |]. intros Hspoiled.
  subst st2. rewrite (Hrun now2 st1 d2 o2 Hid2 Hmac2 Hbody2). cbn [fst].
  rewrite (grant_subscription plans now2 st1 o2 email Hs2 He2 Hne).
  rewrite (user_or_empty_balance st1 email _ H1), (credits_for_plan_plain _ _ Hplain).
  unfold WebhookServer.balance_or_zero, JS.or_else. cbn [JS.truthy].
  rewrite (not_empty_eqb spoiled Hspoiled). reflexivity.
Qed.

Lemma inherited_plan_id_spoils_balance_witness :
  let d1 := WebhookServer.mkDelivery None WebhookServer.HmacPassed (Some constructor_order) in
  let d2 := WebhookServer.mkDelivery None WebhookServer.HmacPassed (Some renewal_order) in
  let st1 := fst (@WebhookServer.post_v1_webhooks_shopify sample_engine
                    WebhookServer.default_plans 1700000000000 (one_user 10) d1) in
  let st2 := fst (@WebhookServer.post_v1_webhooks_shopify sample_engine
                    WebhookServer.default_plans 1700000600000 st1 d2) in
  WebhookServer.balance <$> WebhookServer.usersByEmail st1 !! "ada@example.com" =
    Some (JS.VString "10function Object() { [native code] }") /\
  WebhookServer.balance <$> WebhookServer.usersByEmail st2 !! "ada@example.com" =
    Some (JS.VString "10function Object() { [native code] }7500").
Proof.
  intros d1 d2 st1 st2.
  destruct (@inherited_plan_id_spoils_balance sample_engine WebhookServer.default_plans
              1700000000000 1700000600000 (one_user 10) d1 d2 constructor_order renewal_order
              "ada@example.com" "function Object() { [native code] }" 10
              eq_refl eq_refl eq_refl eq_refl eq_refl eq_refl
              ltac:(discriminate) ltac:(discriminate) eq_refl eq_refl
              ltac:(discriminate) eq_refl eq_refl eq_refl eq_refl) as (H1 & H2).
  split; [exact H1 |]. apply H2. discriminate.
Defined.

(** X30: a reservation of [NaN] credits does not reach the panel.  When
    [webhook-server.js] answers a reserve request whose seconds do not read
    as a number, the [NaN] it has reserved is written [null] in the answer:
    the panel's cached balance stays as it was while the stored balance has
    become [NaN], and the later settlement refunds nothing. *)
Theorem not_a_number_reservation_is_null `{JS.Engine}
    (cps : JS.number) (now : Z) (st : WebhookServer.store) (email s task : string)
    (b : Z) (previous : option Panel.reservation) (success : bool) (seconds : JS.number) :
  s <> "" ->
  JS.StringToNumber s = JS.NaN ->
  let served := WebhookServer.post_v1_jobs cps now st email (JS.VString s) in
  let p1 := PanelRoutes.reserveCreditsForGeneration
              (Panel.mkPanel true (Some (JS.VNumber (JS.of_Z b))) previous) (snd served) in
  WebhookServer.balance <$> WebhookServer.usersByEmail (fst served) !! email =
    Some (JS.VNumber JS.NaN) /\
  p1 = Panel.mkPanel true (Some (JS.VNumber (JS.of_Z b)))
         (Some (Panel.mkReservation (WebhookServer.task_id now) JS.VNull)) /\
  Panel.settleCreditsOnCompletion p1 task success seconds =
    Panel.mkPanel true (Some (JS.VNumber (JS.of_Z b))) None.
Proof.
  intros Hs Hn served p1.
  pose proof (needed_not_a_number cps s Hs Hn) as Hneeded.
  assert (served =
          (WebhookServer.set_user st email
             (WebhookServer.with_balance (WebhookServer.user_or_empty st email)
                (JS.VNumber JS.NaN)),
           WebhookServer.JobReserved (WebhookServer.task_id now) JS.NaN)) as Hserved.
  { subst served. rewrite post_v1_jobs_reserved.
    - now rewrite Hneeded, sub_NaN.
    - rewrite Hneeded. apply lt_NaN_r. }
  subst p1. rewrite Hserved. cbn [fst snd]. split; [apply set_user_balance |].
  rewrite reserve_null. split; [reflexivity | apply settle_null].
Qed.

Lemma not_a_number_reservation_is_null_witness :
  let served := @WebhookServer.post_v1_jobs sample_engine (JS.of_Z 15) 1700000000123
                  (one_user 200) "ada@example.com" (JS.VString "ten") in
  let p1 := @PanelRoutes.reserveCreditsForGeneration sample_engine
              (Panel.mkPanel true (Some (JS.VNumber (JS.of_Z 200))) None) (snd served) in
  WebhookServer.balance <$> WebhookServer.usersByEmail (fst served) !! "ada@example.com" =
    Some (JS.VNumber JS.NaN) /\
  p1 = Panel.mkPanel true (Some (JS.VNumber (JS.of_Z 200)))
         (Some (Panel.mkReservation (WebhookServer.task_id 1700000000123) JS.VNull)) /\
  @Panel.settleCreditsOnCompletion sample_engine p1 "task_1700000000123" true (JS.of_Z 10) =
    Panel.mkPanel true (Some (JS.VNumber (JS.of_Z 200))) None.
Proof.
  apply (@not_a_number_reservation_is_null sample_engine (JS.of_Z 15) 1700000000123
           (one_user 200) "ada@example.com" "ten" "task_1700000000123" 200 None true
           (JS.of_Z 10)).
  - discriminate.
  - vm_compute. reflexivity.
Defined.
